(** * Votekick: the poll lifecycle of [src/commands/moderation/votekick.ts]

    A shallow embedding of the [execute] handler of the [votekick] command
    and of the quorum arithmetic it relies on, followed by the properties
    of the poll that the design document states. *)

From Stdlib Require Import ZArith QArith Qround Lia List Bool.
From stdpp Require Import gmap strings list pretty.

Local Open Scope Z_scope.

(** ** Constants (votekick.ts, lines 5-6) *)

Definition VOTE_DURATION : Z := 60000.
Definition REQUIRED_VOTES_PERCENTAGE : Q := (1 # 2)%Q.

(** ** Quorum arithmetic (votekick.ts, lines 145-146)

    [memberCount] is an array length and the vote counts are set sizes, so
    all three are integers below 2^32; the product with 0.5 is then exact
    in double precision and rational arithmetic describes it. *)

Module Quorum.

(** [Math.ceil(memberCount * REQUIRED_VOTES_PERCENTAGE)] *)
Definition requiredVotes (memberCount : Z) : Z :=
  Qceiling (inject_Z memberCount * REQUIRED_VOTES_PERCENTAGE)%Q.

(** [yesVotes > noVotes && yesVotes >= requiredVotes] *)
Definition votekickPasses (yesVotes noVotes memberCount : Z) : bool :=
  (noVotes <? yesVotes) && (requiredVotes memberCount <=? yesVotes).

(** The two branches of [if (votekickPasses)]. *)
Inductive decision := Passed | Failed.

Definition quorum (yesVotes noVotes memberCount : Z) : decision :=
  if votekickPasses yesVotes noVotes memberCount then Passed else Failed.

End Quorum.

(** ** Strings

    [String.prototype.trim] and [toLowerCase], on strings of ASCII
    characters. *)

Module JsString.

Fixpoint trimStart (s : string) : string :=
  match s with
  | String c s' => if Ascii.is_space c then trimStart s' else s
  | EmptyString => EmptyString
  end.

Definition trimEnd (s : string) : string :=
  String.rev (trimStart (String.rev s)).

Definition trim (s : string) : string := trimEnd (trimStart s).

Definition toLowerCase_char (c : Ascii.ascii) : Ascii.ascii :=
  let n := Ascii.nat_of_ascii c in
  if ((65 <=? n) && (n <=? 90))%nat then Ascii.ascii_of_nat (n + 32) else c.

Fixpoint toLowerCase (s : string) : string :=
  match s with
  | String c s' => String (toLowerCase_char c) (toLowerCase s')
  | EmptyString => EmptyString
  end.

(** [xs.join(sep)] *)
Definition join (sep : string) (xs : list string) : string :=
  String.concat sep xs.

(** [s ?? ''] *)
Definition nullish_or_empty (s : option string) : string :=
  match s with Some x => x | None => EmptyString end.

(** [s || '']: the empty string is falsy as well. *)
Definition falsy_or_empty (s : option string) : string :=
  match s with
  | Some x => if String.eqb x EmptyString then EmptyString else x
  | None => EmptyString
  end.

(** A string used as a condition is true when it is not empty. *)
Definition truthy (s : string) : bool := negb (String.eqb s EmptyString).

End JsString.

(** ** Platform objects

    The parts of the messaging platform's objects that [execute] reads.
    Fields reached through [?.] are optional. *)

Inductive error := Error (message : string).

(** A promise that has settled. *)
Inductive settled (A : Type) :=
| Fulfilled (a : A)
| Rejected (e : error).
Arguments Fulfilled {A} a.
Arguments Rejected {A} e.

Record User := {
  username : option string;
  bot : bool
}.

Record Member := {
  _id_user : string;          (* member._id.user *)
  user : option User          (* member.user *)
}.

Record Message := {
  _id : string;
  reactions : option (gmap string (gset string))
}.

Record ServerConfig := {
  features_experiments_moderation : bool;
  security_blockedUsers : list string
}.

(** [encodeURIComponent] of the two vote markers U+2705 and U+274C. *)
Definition YES_MARKER : string := "%E2%9C%85".
Definition NO_MARKER : string := "%E2%9D%8C".

(** What [msg.reply] is called with: one constructor per call in
    [execute], carrying the values interpolated into the text. *)
Inductive reply_data :=
| FeatureDisabled
| InvalidUsage
| AccessDenied
| UserNotFound
| CannotVotekickBot
| VotekickStarted (target : option string) (reason : string)
                  (startedBy : option string)
| ReactionError
| VotekickSuccessful (target : option string) (yesVotes noVotes : Z)
                     (reason : string)
| KickFailed
| VotekickFailed (target : option string) (yesVotes noVotes requiredVotes : Z)
| CommandError (cause : error).

(** What the handler does to the outside, in order. *)
Inductive event :=
| Ev_getServerConfig (serverId : string)
| Ev_reply (d : reply_data)
| Ev_log (text : string) (cause : error)
| Ev_fetchMembers
| Ev_react (marker : string)
| Ev_setTimeout (ms : Z)
| Ev_fetchMessage (id : string)
| Ev_kick (m : Member).

(** The invocation and the answers of the collaborators.  A call that can
    be made more than once takes the number of the call; a call behind
    [?.] answers [None] when its receiver is absent, and is then not
    made. *)
Record World := {
  serverId : option string;                                (* msg.channel?.server?._id *)
  author_id : option string;                               (* msg.author?._id *)
  author_username : option string;                         (* msg.author?.username *)
  getServerConfig : nat -> string -> settled ServerConfig;
  fetchMembers : nat -> option (settled (list Member));
  reply : reply_data -> settled (option Message);
  react : Message -> string -> settled unit;
  no_rejects_first : bool;    (* when both reactions fail: which one fails first *)
  fetchMessage : string -> option (settled (option Message));
  kick : Member -> settled unit
}.

(** ** Timers (votekick.ts, lines 125-129)

    Timers created in one synchronous block expire in the order of their
    delays, and in the order of creation when the delays are equal.  A
    promise settles once: later attempts to settle it are ignored. *)

Module EventLoop.

Inductive promise_state :=
| Pending
| Settled (r : settled unit).

(** [setTimeout(() => settle(outcome), delay)] *)
Record timer := { delay : Z; outcome : settled unit }.

Fixpoint setTimeout (t : timer) (queue : list timer) : list timer :=
  match queue with
  | [] => [t]
  | u :: queue' =>
      if delay u <=? delay t then u :: setTimeout t queue' else t :: queue
  end.

Definition settle (p : promise_state) (r : settled unit) : promise_state :=
  match p with
  | Pending => Settled r
  | Settled _ => p
  end.

(** The timers of the queue fire one after the other. *)
Definition run (queue : list timer) : promise_state :=
  fold_left (fun p t => settle p (outcome t)) queue Pending.

(** [Promise.race] of promises that are settled by timers. *)
Definition race (timers : list timer) : promise_state :=
  run (fold_left (fun queue t => setTimeout t queue) timers []).

End EventLoop.

(** ** Control flow

    A piece of the handler produces a trace of events and completes
    normally with a value, by throwing, by a [return] statement, or never
    (it awaits a promise that stays pending).  A [return] leaves the
    function through every enclosing [try]: when the returned value is a
    promise that rejects, the rejection is that of the function's own
    promise and no [catch] block sees it. *)

Inductive completion (A : Type) :=
| Normal (a : A)
| Throw (e : error)
| Return (v : settled (option Message))
| Suspend.
Arguments Normal {A} a.
Arguments Throw {A} e.
Arguments Return {A} v.
Arguments Suspend {A}.

Definition Flow (A : Type) : Type := list event * completion A.

Definition ret {A} (a : A) : Flow A := ([], Normal a).

Definition bind {A B} (m : Flow A) (k : A -> Flow B) : Flow B :=
  match m with
  | (t, Normal a) => let '(t', c) := k a in (t ++ t', c)
  | (t, Throw e) => (t, Throw e)
  | (t, Return v) => (t, Return v)
  | (t, Suspend) => (t, Suspend)
  end.

Notation "'let*' x ':=' m 'in' k" := (bind m (fun x => k))
  (at level 10, x pattern, m at level 100, k at level 200).
Notation "m ';;' k" := (bind m (fun _ => k))
  (at level 100, right associativity).

Definition emit (e : event) : Flow unit := ([e], Normal tt).
Definition throw {A} (e : error) : Flow A := ([], Throw e).
Definition return_ {A} (v : settled (option Message)) : Flow A :=
  ([], Return v).

(** [try { m } catch (error) { handler error }] *)
Definition try_catch {A} (m : Flow A) (handler : error -> Flow A) : Flow A :=
  match m with
  | (t, Throw e) => let '(t', c) := handler e in (t ++ t', c)
  | _ => m
  end.

(** [await p] *)
Definition await {A} (p : settled A) : Flow A :=
  match p with
  | Fulfilled a => ret a
  | Rejected e => throw e
  end.

(** [await recv?.call()], where [ev] records the call. *)
Definition await_optional {A} (ev : event) (p : option (settled A))
  : Flow (option A) :=
  match p with
  | None => ret None
  | Some p => emit ev ;; let* a := await p in ret (Some a)
  end.

(** [await Promise.all([p1, p2])], where [second_first] tells which
    rejection comes first when both promises reject. *)
Definition Promise_all2 (second_first : bool) (p1 p2 : settled unit)
  : settled unit :=
  match p1, p2 with
  | Fulfilled _, Fulfilled _ => Fulfilled tt
  | Rejected e, Fulfilled _ => Rejected e
  | Fulfilled _, Rejected e => Rejected e
  | Rejected e1, Rejected e2 => Rejected (if second_first then e2 else e1)
  end.

(** [await] of a promise settled by timers. *)
Definition await_state (p : EventLoop.promise_state) : Flow unit :=
  match p with
  | EventLoop.Settled r => await r
  | EventLoop.Pending => ([], Suspend)
  end.

(** ** The handler (votekick.ts, lines 14-195) *)

Section Execute.

Variable w : World.

Definition msg_reply (d : reply_data) : Flow (settled (option Message)) :=
  emit (Ev_reply d) ;; ret (reply w d).

(** [return msg.reply(d)] *)
Definition return_reply {A} (d : reply_data) : Flow A :=
  let* p := msg_reply d in return_ p.

(** [await msg.reply(d)] *)
Definition await_reply (d : reply_data) : Flow (option Message) :=
  let* p := msg_reply d in await p.

(** [mainLogger.error(text, cause)] *)
Definition log (text : string) (cause : error) : Flow unit :=
  emit (Ev_log text cause).

(** [await db.getServerConfig(id)], the [n]-th call. *)
Definition db_getServerConfig (n : nat) (id : string) : Flow ServerConfig :=
  emit (Ev_getServerConfig id) ;; await (getServerConfig w n id).

(** The callback of [find], lines 59-66. *)
Definition matches (arg0 : string) (member : Member) : bool :=
  let searchTerm := JsString.trim arg0 in
  let username := JsString.trim <$> (user member ≫= username) in
  String.eqb (_id_user member) searchTerm
  || match username with
     | Some username =>
         JsString.truthy username
         && String.eqb (JsString.toLowerCase username)
                       (JsString.toLowerCase searchTerm)
     | None => false
     end.

(** Lines 56-69; [args] has at least two elements here. *)
Definition findTarget (args : list string) : Flow (option Member) :=
  try_catch
    (let* members := await_optional Ev_fetchMembers (fetchMembers w 0) in
     ret (members ≫= List.find (matches (nth 0 args EmptyString))))
    (fun error => log "Error fetching members:" error ;; ret None).

(** Lines 113-122. *)
Definition addReactions (voteMessage : Message) : Flow unit :=
  try_catch
    (emit (Ev_react YES_MARKER) ;;
     emit (Ev_react NO_MARKER) ;;
     await (Promise_all2 (no_rejects_first w)
              (react w voteMessage YES_MARKER)
              (react w voteMessage NO_MARKER)))
    (fun error =>
       log "Failed to add vote reactions:" error ;;
       await_reply ReactionError ;;
       return_ (Fulfilled None)).

(** Lines 125-129. *)
Definition waitForVotes : Flow unit :=
  emit (Ev_setTimeout VOTE_DURATION) ;;
  emit (Ev_setTimeout (VOTE_DURATION + 1000)) ;;
  await_state
    (EventLoop.race
       [ {| EventLoop.delay := VOTE_DURATION;
            EventLoop.outcome := Fulfilled tt |};
         {| EventLoop.delay := VOTE_DURATION + 1000;
            EventLoop.outcome := Rejected (Error "Vote timed out") |} ]).

(** [message.reactions?.get(marker)?.size || 0], lines 136-140. *)
Definition votes (message : Message) (marker : string) : Z :=
  match reactions message ≫= (fun r => r !! marker) with
  | Some voters => Z.of_nat (size voters)
  | None => 0
  end.

(** A number used as a condition: [undefined] and [0] are false. *)
Definition truthy_number (n : option Z) : option Z :=
  match n with
  | Some n => if n =? 0 then None else Some n
  | None => None
  end.

(** Lines 131-184. *)
Definition tally (targetMember : Member) (reason : string)
                 (voteMessage : Message) : Flow unit :=
  let* message := await_optional (Ev_fetchMessage (_id voteMessage))
                                 (fetchMessage w (_id voteMessage)) in
  match mjoin message with
  | None => throw (Error "Could not fetch vote message")
  | Some message =>
      let yesVotes := votes message YES_MARKER in
      let noVotes := votes message NO_MARKER in
      let* members := await_optional Ev_fetchMembers (fetchMembers w 1) in
      let memberCount := (fun m => Z.of_nat (length m)) <$> members in
      match truthy_number memberCount with
      | None => throw (Error "Failed to fetch member count")
      | Some memberCount =>
          let requiredVotes := Quorum.requiredVotes memberCount in
          let votekickPasses :=
            Quorum.votekickPasses yesVotes noVotes memberCount in
          if votekickPasses then
            try_catch
              (emit (Ev_kick targetMember) ;;
               await (kick w targetMember) ;;
               return_reply
                 (VotekickSuccessful (user targetMember ≫= username)
                                     yesVotes noVotes reason))
              (fun error =>
                 log "Failed to kick user after successful votekick:" error ;;
                 return_reply KickFailed)
          else
            return_reply
              (VotekickFailed (user targetMember ≫= username)
                              yesVotes noVotes requiredVotes)
      end
  end.

(** Lines 92-184. *)
Definition poll (args : list string) (targetMember : Member) : Flow unit :=
  let reason := JsString.trim (JsString.join " " (tail args)) in
  let* voteMessage :=
    await_reply (VotekickStarted (user targetMember ≫= username) reason
                                 (author_username w)) in
  match voteMessage with
  | None => throw (Error "Failed to create vote message")
  | Some voteMessage =>
      addReactions voteMessage ;;
      waitForVotes ;;
      tally targetMember reason voteMessage
  end.

(** [targetMember.user?.bot], line 82. *)
Definition is_bot (member : Member) : bool :=
  match user member with
  | Some u => bot u
  | None => false
  end.

(** Lines 41-184: the body of the outer [try]. *)
Definition guarded_body (args : list string) : Flow unit :=
  let* serverConfig :=
    db_getServerConfig 1 (JsString.nullish_or_empty (serverId w)) in
  if existsb (String.eqb (JsString.nullish_or_empty (author_id w)))
             (security_blockedUsers serverConfig)
  then return_reply AccessDenied
  else
    let* targetMember := findTarget args in
    match targetMember with
    | None => return_reply UserNotFound
    | Some targetMember =>
        if is_bot targetMember
        then return_reply CannotVotekickBot
        else poll args targetMember
    end.

(** Lines 40-194: the outer [try] and its [catch]. *)
Definition guarded (args : list string) : Flow unit :=
  try_catch
    (guarded_body args)
    (fun error =>
       log "Error in votekick command:" error ;;
       return_reply (CommandError error)).

Definition execute (args : option (list string)) : Flow unit :=
  let* config :=
    db_getServerConfig 0 (JsString.falsy_or_empty (serverId w)) in
  if negb (features_experiments_moderation config)
  then return_reply FeatureDisabled
  else
    match args with
    | None => return_reply InvalidUsage
    | Some args =>
        if (length args <? 2)%nat
        then return_reply InvalidUsage
        else guarded args
    end.

End Execute.

(** The promise that the [async] function hands to its caller; [None]
    when it never settles. *)
Definition promise_of (c : completion unit) : option (settled (option Message)) :=
  match c with
  | Normal _ => Some (Fulfilled None)
  | Throw e => Some (Rejected e)
  | Return v => Some v
  | Suspend => None
  end.

(** ** The text of the replies (the arguments of [msg.reply]) *)

Record embed := { title : string; description : string; colour : string }.

Inductive payload :=
| Embeds (es : list embed)
| Content (text : string).

Definition nl : string := String (Ascii.ascii_of_nat 10) EmptyString.

(** An optional string inside a template literal. *)
Definition show (s : option string) : string :=
  match s with Some x => x | None => "undefined" end.

(** An error inside a template literal. *)
Definition error_to_string (e : error) : string :=
  match e with
  | Error m => if String.eqb m EmptyString then "Error" else "Error: " +:+ m
  end.

Definition final_votes (yesVotes noVotes : Z) : string :=
  "**Final Votes**: Yes: " +:+ pretty yesVotes +:+ ", No: " +:+ pretty noVotes
  +:+ " (Total: " +:+ pretty (yesVotes + noVotes) +:+ ")".

Definition red (t d : string) : payload :=
  Embeds [ {| title := t; description := d; colour := "#ff0000" |} ].

Definition render (d : reply_data) : payload :=
  match d with
  | FeatureDisabled =>
      red "Feature Disabled" "Moderation commands are disabled on this server"
  | InvalidUsage =>
      red "Invalid Usage" "Please provide a user ID and reason"
  | AccessDenied =>
      red "Access Denied" "You are blocked from using this command"
  | UserNotFound =>
      red "Error" "User not found in this server. Please provide a valid user ID or username."
  | CannotVotekickBot =>
      red "Error" "Cannot votekick a bot"
  | VotekickStarted target reason startedBy =>
      Embeds [ {| title := "Votekick Started";
                  description :=
                    JsString.join nl
                      [ "A votekick has been started against **" +:+ show target +:+ "**";
                        "**Reason**: " +:+ reason;
                        "**Started by**: " +:+ show startedBy;
                        nl +:+ "React with ✅ to vote YES";
                        "React with ❌ to vote NO";
                        nl +:+ "Vote ends in " +:+ pretty (VOTE_DURATION / 1000) +:+ " seconds" ];
                  colour := "#ffff00" |} ]
  | ReactionError =>
      Content "Failed to start vote due to reaction error"
  | VotekickSuccessful target yesVotes noVotes reason =>
      Embeds [ {| title := "Votekick Successful";
                  description :=
                    JsString.join nl
                      [ "**" +:+ show target +:+ "** has been kicked";
                        final_votes yesVotes noVotes;
                        "**Reason**: " +:+ reason ];
                  colour := "#00ff00" |} ]
  | KickFailed =>
      red "Error" "Votekick passed but failed to kick user. Make sure I have the required permissions."
  | VotekickFailed target yesVotes noVotes requiredVotes =>
      red "Votekick Failed"
          (JsString.join nl
             [ "Not enough votes to kick **" +:+ show target +:+ "**";
               final_votes yesVotes noVotes;
               "**Required Votes**: " +:+ pretty requiredVotes ])
  | CommandError cause =>
      red "Error"
          ("An error occurred while executing the votekick" +:+ nl +:+ " ```" +:+ nl
           +:+ error_to_string cause +:+ nl +:+ "```")
  end.

(** ** Reading a run *)

Definition trace (w : World) (args : option (list string)) : list event :=
  fst (execute w args).

Definition outcome (w : World) (args : option (list string)) : completion unit :=
  snd (execute w args).

Definition is_kick (e : event) : bool :=
  match e with Ev_kick _ => true | _ => false end.

Definition is_fetchMembers (e : event) : bool :=
  match e with Ev_fetchMembers => true | _ => false end.

(** The events of the stages that follow the vote window and the timers
    of the window itself. *)
Definition is_later_stage (e : event) : bool :=
  match e with
  | Ev_setTimeout _ | Ev_fetchMessage _ | Ev_kick _ => true
  | Ev_reply (VotekickSuccessful _ _ _ _) => true
  | Ev_reply KickFailed => true
  | Ev_reply (VotekickFailed _ _ _ _) => true
  | _ => false
  end.

(** The replies that report a quorum decision. *)
Definition is_decision (e : event) : bool :=
  match e with
  | Ev_reply (VotekickSuccessful _ _ _ _) => true
  | Ev_reply KickFailed => true
  | Ev_reply (VotekickFailed _ _ _ _) => true
  | _ => false
  end.

Definition reply_of (e : event) : option reply_data :=
  match e with Ev_reply d => Some d | _ => None end.

Definition replies (t : list event) : list reply_data := omap reply_of t.

Definition kicks (t : list event) : nat := length (List.filter is_kick t).

Definition TOP_LEVEL_LOG : string := "Error in votekick command:".

Definition is_top_level_log (e : event) : bool :=
  match e with
  | Ev_log text _ => String.eqb text TOP_LEVEL_LOG
  | _ => false
  end.

(** ** The vocabulary of the design document *)

Module Spec.

Inductive ErrorKind :=
| FeatureDisabled | InvalidUsage | AccessDenied | TargetNotFound | TargetIsBot
| ReactionSetupFailure | FetchFailure | ActionExecutionFailure | UnknownError.

Record VoteTally := { yes : Z; no : Z }.

Inductive Outcome :=
| Passed (tally : VoteTally)
| Failed
| PassedButActionFailed
| Aborted (kind : ErrorKind).

End Spec.

(** The terminal outcome that a reply reports; the announcement of the
    poll reports none. *)
Definition outcome_of (d : reply_data) : option Spec.Outcome :=
  match d with
  | FeatureDisabled => Some (Spec.Aborted Spec.FeatureDisabled)
  | InvalidUsage => Some (Spec.Aborted Spec.InvalidUsage)
  | AccessDenied => Some (Spec.Aborted Spec.AccessDenied)
  | UserNotFound => Some (Spec.Aborted Spec.TargetNotFound)
  | CannotVotekickBot => Some (Spec.Aborted Spec.TargetIsBot)
  | VotekickStarted _ _ _ => None
  | ReactionError => Some (Spec.Aborted Spec.ReactionSetupFailure)
  | VotekickSuccessful _ y n _ => Some (Spec.Passed {| Spec.yes := y; Spec.no := n |})
  | KickFailed => Some Spec.PassedButActionFailed
  | VotekickFailed _ _ _ _ => Some Spec.Failed
  | CommandError _ => Some (Spec.Aborted Spec.UnknownError)
  end.

(** ** Concrete invocations

    The end-to-end scenario of the design document (twelve members, the
    target "alice") and variations of single answers of the collaborators. *)

Module Scenario.

Definition config (enabled : bool) : ServerConfig :=
  {| features_experiments_moderation := enabled;
     security_blockedUsers := ["mallory"] |}.

Definition human (id name : string) : Member :=
  {| _id_user := id; user := Some {| username := Some name; bot := false |} |}.

Definition alice : Member := human "01ALICE" "Alice".

Definition helper : Member :=
  {| _id_user := "01HELPER";
     user := Some {| username := Some "helper"; bot := true |} |}.

Definition roster (size : nat) : list Member :=
  take size (alice :: helper :: (human "01MEMBER" <$> (pretty <$> seq 0 size))).

Definition voters (count : nat) : gset string :=
  list_to_set (pretty <$> seq 0 count).

Definition announcement : Message := {| _id := "poll-1"; reactions := None |}.

Definition counted (yes no : nat) : Message :=
  {| _id := "poll-1";
     reactions := Some {[ YES_MARKER := voters yes; NO_MARKER := voters no ]} |}.

(** An announcement on which nobody reacted with the no marker and from
    which the marker itself is gone. *)
Definition only_yes (yes : nat) : Message :=
  {| _id := "poll-1"; reactions := Some {[ YES_MARKER := voters yes ]} |}.

(** Everything answers; [yes] and [no] reactions are found after the
    window and the roster has [size] members. *)
Definition base (yes no size : nat) : World :=
  {| serverId := Some "srv";
     author_id := Some "carol";
     author_username := Some "Carol";
     getServerConfig := fun _ _ => Fulfilled (config true);
     fetchMembers := fun k =>
       Some (Fulfilled (if (k =? 0)%nat then roster 12 else roster size));
     reply := fun d =>
       match d with
       | VotekickStarted _ _ _ => Fulfilled (Some announcement)
       | _ => Fulfilled (Some {| _id := "reply"; reactions := None |})
       end;
     react := fun _ _ => Fulfilled tt;
     no_rejects_first := false;
     fetchMessage := fun _ => Some (Fulfilled (Some (counted yes no)));
     kick := fun _ => Fulfilled tt |}.

Definition with_config (n : nat) (r : settled ServerConfig) (w : World) : World :=
  {| serverId := serverId w;
     author_id := author_id w;
     author_username := author_username w;
     getServerConfig := fun k id => if (k =? n)%nat then r else getServerConfig w k id;
     fetchMembers := fetchMembers w;
     reply := reply w;
     react := react w;
     no_rejects_first := no_rejects_first w;
     fetchMessage := fetchMessage w;
     kick := kick w |}.

Definition with_author (id : option string) (w : World) : World :=
  {| serverId := serverId w;
     author_id := id;
     author_username := author_username w;
     getServerConfig := getServerConfig w;
     fetchMembers := fetchMembers w;
     reply := reply w;
     react := react w;
     no_rejects_first := no_rejects_first w;
     fetchMessage := fetchMessage w;
     kick := kick w |}.

Definition with_members (n : nat) (r : option (settled (list Member))) (w : World)
  : World :=
  {| serverId := serverId w;
     author_id := author_id w;
     author_username := author_username w;
     getServerConfig := getServerConfig w;
     fetchMembers := fun k => if (k =? n)%nat then r else fetchMembers w k;
     reply := reply w;
     react := react w;
     no_rejects_first := no_rejects_first w;
     fetchMessage := fetchMessage w;
     kick := kick w |}.

Definition with_react (marker : string) (r : settled unit) (w : World) : World :=
  {| serverId := serverId w;
     author_id := author_id w;
     author_username := author_username w;
     getServerConfig := getServerConfig w;
     fetchMembers := fetchMembers w;
     reply := reply w;
     react := fun m k => if String.eqb k marker then r else react w m k;
     no_rejects_first := no_rejects_first w;
     fetchMessage := fetchMessage w;
     kick := kick w |}.

Definition with_message (r : option (settled (option Message))) (w : World) : World :=
  {| serverId := serverId w;
     author_id := author_id w;
     author_username := author_username w;
     getServerConfig := getServerConfig w;
     fetchMembers := fetchMembers w;
     reply := reply w;
     react := react w;
     no_rejects_first := no_rejects_first w;
     fetchMessage := fun _ => r;
     kick := kick w |}.

Definition with_kick (r : settled unit) (w : World) : World :=
  {| serverId := serverId w;
     author_id := author_id w;
     author_username := author_username w;
     getServerConfig := getServerConfig w;
     fetchMembers := fetchMembers w;
     reply := reply w;
     react := react w;
     no_rejects_first := no_rejects_first w;
     fetchMessage := fetchMessage w;
     kick := fun _ => r |}.

Definition args_alice : option (list string) := Some [" alice "; "spamming"; "links"].
Definition args_nobody : option (list string) := Some ["zed"; "because"].

Definition down : error := Error "connection lost".

End Scenario.

(** ** More readings of strings, runs and replies *)

(** A string that does not begin, or does not end, with white space. *)
Definition starts_clean (s : string) : bool :=
  match s with
  | String c _ => negb (Ascii.is_space c)
  | EmptyString => true
  end.

Definition ends_clean (s : string) : bool := starts_clean (String.rev s).


Definition is_react (e : event) : bool :=
  match e with Ev_react _ => true | _ => false end.

(** The replies of lines 21, 31, 46, 72 and 83, which end the command
    before a poll is announced. *)
Definition is_gate_reject (d : reply_data) : bool :=
  match d with
  | FeatureDisabled | InvalidUsage | AccessDenied | UserNotFound
  | CannotVotekickBot => true
  | _ => false
  end.

(** Two replies made by the same call of [msg.reply]. *)
Definition same_kind (d1 d2 : reply_data) : bool :=
  match d1, d2 with
  | FeatureDisabled, FeatureDisabled
  | InvalidUsage, InvalidUsage
  | AccessDenied, AccessDenied
  | UserNotFound, UserNotFound
  | CannotVotekickBot, CannotVotekickBot
  | VotekickStarted _ _ _, VotekickStarted _ _ _
  | ReactionError, ReactionError
  | VotekickSuccessful _ _ _ _, VotekickSuccessful _ _ _ _
  | KickFailed, KickFailed
  | VotekickFailed _ _ _ _, VotekickFailed _ _ _ _
  | CommandError _, CommandError _ => true
  | _, _ => false
  end.

(** A message with other reactions. *)
Definition with_reactions (r : gmap string (gset string)) (message : Message)
  : Message :=
  {| _id := _id message; reactions := Some r |}.

(** A world in which [msg.reply] answers [r] to the announcement of the
    poll. *)
Definition with_announcement (r : settled (option Message)) (w : World) : World :=
  {| serverId := serverId w;
     author_id := author_id w;
     author_username := author_username w;
     getServerConfig := getServerConfig w;
     fetchMembers := fetchMembers w;
     reply := fun d =>
       match d with
       | VotekickStarted _ _ _ => r
       | _ => reply w d
       end;
     react := react w;
     no_rejects_first := no_rejects_first w;
     fetchMessage := fetchMessage w;
     kick := kick w |}.

(** ** The server summary ([src/commands/info/serverinfo.ts]) *)

Module ServerInfo.

(** The fields of [msg.channel.server] that the command reads.  Objects
    that are only passed to [Object.keys] are given by their keys; the
    optional ones are absent when the value is falsy. *)
Record Server := {
  name : string;
  owner : string;
  _id : string;
  channels : option (list string);
  roles : option (list string);
  createdAt : Z;
  description : option string;
  nsfw : bool;
  flags : option (list string);
  icon : option string            (* server.icon?._id *)
}.

Inductive reply_data :=
| NotInServer
| Information (server : Server) (owner : option Member) (memberCount : nat)
              (createdDate : string)
| FetchFailed.

Inductive event :=
| Ev_fetchMember (id : string)
| Ev_fetchMembers
| Ev_reply (d : reply_data)
| Ev_log (text : string) (cause : error).

(** The invocation and the answers of the collaborators; the date is
    formatted by the runtime ([toLocaleDateString]). *)
Record World := {
  server : option Server;                       (* msg.channel?.server *)
  fetchMember : string -> settled (option Member);
  fetchMembers : settled (list Member);
  toLocaleDateString : Z -> string;
  reply : reply_data -> settled unit;
  logger : bool                                 (* this.logger?. *)
}.

(** A piece of the handler: what it did and how it ended. *)
Definition Run (A : Type) : Type := list event * settled A.

Definition and_then {A B} (m : Run A) (k : A -> Run B) : Run B :=
  match m with
  | (t, Fulfilled a) => let '(t', r) := k a in (t ++ t', r)
  | (t, Rejected e) => (t, Rejected e)
  end.

(** [try { m } catch (error) { handler error }] *)
Definition try_catch {A} (m : Run A) (handler : error -> Run A) : Run A :=
  match m with
  | (t, Rejected e) => let '(t', r) := handler e in (t ++ t', r)
  | _ => m
  end.

(** [await call], recorded as [ev]. *)
Definition call {A} (ev : event) (answer : settled A) : Run A := ([ev], answer).

(** [owner?.user?.username || 'Unknown'] *)
Definition owner_name (owner : option Member) : string :=
  match (owner ≫= user) ≫= username with
  | Some n => if JsString.truthy n then n else "Unknown"
  | None => "Unknown"
  end.

(** [Object.keys(x || {}).length] *)
Definition count_keys (x : option (list string)) : nat :=
  match x with Some keys => length keys | None => 0%nat end.

(** The array of lines 45-59, [null] being [None]. *)
Definition lines (server : Server) (owner : option Member) (memberCount : nat)
           (createdDate : string) : list (option string) :=
  [ Some ("**Owner:** " +:+ owner_name owner);
    Some ("**Created:** " +:+ createdDate);
    Some ("**Server ID:** `" +:+ _id server +:+ "`");
    Some "";
    Some "**Statistics:**";
    Some ("• Members: " +:+ pretty memberCount);
    Some ("• Channels: " +:+ pretty (count_keys (channels server)));
    Some ("• Roles: " +:+ pretty (count_keys (roles server)));
    Some "";
    match description server with
    | Some d => if JsString.truthy d
                then Some ("**Description:**" +:+ nl +:+ d) else None
    | None => None
    end;
    Some "";
    Some "**Features:**";
    Some ("• NSFW: " +:+ if nsfw server then "Yes" else "No");
    match flags server with
    | Some keys => Some ("• Flags: " +:+ JsString.join ", " keys)
    | None => None
    end ].

(** [.filter(Boolean)]: [null] and the empty string go. *)
Definition filter_Boolean (xs : list (option string)) : list string :=
  omap (fun x => match x with
                 | Some s => if JsString.truthy s then Some s else None
                 | None => None
                 end) xs.

Record embed := {
  title : string;
  description_text : string;
  media : option string;
  colour : string
}.

Definition render (d : reply_data) : embed :=
  match d with
  | NotInServer =>
      {| title := "Error";
         description_text := "This command can only be used in servers!";
         media := None;
         colour := "#ff0000" |}
  | Information server owner memberCount createdDate =>
      {| title := "📊 Server Information: " +:+ name server;
         description_text :=
           JsString.join nl
             (filter_Boolean (lines server owner memberCount createdDate));
         media := icon server;
         colour := "#00ff00" |}
  | FetchFailed =>
      {| title := "Error";
         description_text := "Failed to fetch server information";
         media := None;
         colour := "#ff0000" |}
  end.

(** Lines 13-75. *)
Definition execute (w : World) : Run unit :=
  match server w with
  | None => call (Ev_reply NotInServer) (reply w NotInServer)
  | Some server =>
      try_catch
        (and_then (call (Ev_fetchMember (owner server))
                        (fetchMember w (owner server)))
           (fun owner =>
         and_then (call Ev_fetchMembers (fetchMembers w))
           (fun members =>
         let memberCount := length members in
         let createdDate := toLocaleDateString w (createdAt server) in
         call (Ev_reply (Information server owner memberCount createdDate))
              (reply w (Information server owner memberCount createdDate)))))
        (fun error =>
           and_then (if logger w
                     then ([Ev_log "Error fetching server info:" error],
                           Fulfilled tt)
                     else ([], Fulfilled tt))
             (fun _ => call (Ev_reply FetchFailed) (reply w FetchFailed)))
  end.

Definition is_fetch (e : event) : bool :=
  match e with Ev_fetchMember _ | Ev_fetchMembers => true | _ => false end.

Definition reply_of (e : event) : option reply_data :=
  match e with Ev_reply d => Some d | _ => None end.

Definition replies (t : list event) : list reply_data := omap reply_of t.

(** A server and an invocation in it, in which everything answers. *)
Definition demo_server : Server :=
  {| name := "Lounge";
     owner := "01ALICE";
     _id := "srv";
     channels := Some ["0"; "1"; "2"];
     roles := None;
     createdAt := 1700000000000;
     description := Some "";
     nsfw := false;
     flags := Some [];
     icon := None |}.

Definition demo (members : settled (list Member)) : World :=
  {| server := Some demo_server;
     fetchMember := fun _ => Fulfilled (Some Scenario.alice);
     fetchMembers := members;
     toLocaleDateString := fun _ => "November 14, 2023";
     reply := fun _ => Fulfilled tt;
     logger := true |}.

End ServerInfo.

(** * Properties *)

(** ** The scenarios of the design document *)

Example boundary_cases :
  Quorum.quorum 5 5 10 = Quorum.Failed
  /\ Quorum.quorum 5 1 10 = Quorum.Passed
  /\ Quorum.quorum 4 0 10 = Quorum.Failed
  /\ Quorum.requiredVotes 12 = 6.
Proof. repeat split. Qed.

Example scenario_A :
  replies (trace (Scenario.base 7 2 12) Scenario.args_alice)
  = [VotekickStarted (Some "Alice") "spamming links" (Some "Carol");
     VotekickSuccessful (Some "Alice") 7 2 "spamming links"]
  /\ kicks (trace (Scenario.base 7 2 12) Scenario.args_alice) = 1%nat
  /\ final_votes 7 2 = "**Final Votes**: Yes: 7, No: 2 (Total: 9)".
Proof. repeat split; vm_compute; reflexivity. Qed.

Example scenario_B :
  replies (trace (Scenario.base 5 5 12) Scenario.args_alice)
  = [VotekickStarted (Some "Alice") "spamming links" (Some "Carol");
     VotekickFailed (Some "Alice") 5 5 6]
  /\ kicks (trace (Scenario.base 5 5 12) Scenario.args_alice) = 0%nat.
Proof. repeat split; vm_compute; reflexivity. Qed.

Example scenario_C :
  trace (Scenario.with_config 0 (Fulfilled (Scenario.config false))
           (Scenario.base 7 2 12))
        Scenario.args_alice
  = [Ev_getServerConfig "srv"; Ev_reply FeatureDisabled].
Proof. reflexivity. Qed.

Example removal_fails :
  replies (trace (Scenario.with_kick (Rejected Scenario.down)
                    (Scenario.base 7 2 12))
                 Scenario.args_alice)
  = [VotekickStarted (Some "Alice") "spamming links" (Some "Carol");
     KickFailed]
  /\ kicks (trace (Scenario.with_kick (Rejected Scenario.down)
                     (Scenario.base 7 2 12))
                  Scenario.args_alice) = 1%nat.
Proof. repeat split; vm_compute; reflexivity. Qed.

(** ** The quorum decision *)

Lemma requiredVotes_div (m : Z) : Quorum.requiredVotes m = (m + 1) / 2.
Proof.
  unfold Quorum.requiredVotes, REQUIRED_VOTES_PERCENTAGE, Qceiling, Qfloor.
  cbn [inject_Z Qmult Qopp Qnum Qden Pos.mul].
  replace (Z.pos (1 * 2)) with 2 by reflexivity.
  rewrite Z.mul_1_r.
  pose proof (Z.div_mod (- m) 2 ltac:(lia)) as D1.
  pose proof (Z.mod_pos_bound (- m) 2 ltac:(lia)) as B1.
  pose proof (Z.div_mod (m + 1) 2 ltac:(lia)) as D2.
  pose proof (Z.mod_pos_bound (m + 1) 2 ltac:(lia)) as B2.
  lia.
Qed.

(** [requiredVotes m] is the least integer that is at least half of [m]. *)
Lemma requiredVotes_least (m r : Z) : Quorum.requiredVotes m <= r <-> m <= 2 * r.
Proof.
  rewrite requiredVotes_div.
  pose proof (Z.div_mod (m + 1) 2 ltac:(lia)) as D.
  pose proof (Z.mod_pos_bound (m + 1) 2 ltac:(lia)) as B.
  lia.
Qed.

Lemma votekickPasses_iff (y n m : Z) :
  Quorum.votekickPasses y n m = true <-> n < y /\ Quorum.requiredVotes m <= y.
Proof.
  unfold Quorum.votekickPasses.
  rewrite andb_true_iff, Z.ltb_lt, Z.leb_le. reflexivity.
Qed.

(** C1: for all counts of yes votes, of no votes and all roster sizes, the
    decision is Passed exactly when yes > no and yes >= ceil(rosterSize * 0.5),
    where the ceiling is the least integer not below half the roster, and
    Failed otherwise; a tie is Failed whatever the roster size. *)
Theorem quorum_decision (yes no rosterSize : Z) :
  (Quorum.quorum yes no rosterSize = Quorum.Passed
   <-> yes > no /\ yes >= Qceiling (inject_Z rosterSize * (1 # 2)))
  /\ (Quorum.quorum yes no rosterSize = Quorum.Failed
      <-> ~ (yes > no /\ yes >= Qceiling (inject_Z rosterSize * (1 # 2))))
  /\ (forall r : Z,
        Qceiling (inject_Z rosterSize * (1 # 2)) <= r
        <-> (inject_Z rosterSize * (1 # 2) <= inject_Z r)%Q)
  /\ Quorum.quorum yes yes rosterSize = Quorum.Failed.
Proof.
  change (Qceiling (inject_Z rosterSize * (1 # 2)))
    with (Quorum.requiredVotes rosterSize).
  unfold Quorum.quorum.
  repeat split.
  - destruct (Quorum.votekickPasses yes no rosterSize) eqn:E; [|discriminate].
    apply votekickPasses_iff in E. lia.
  - destruct (Quorum.votekickPasses yes no rosterSize) eqn:E; [|discriminate].
    apply votekickPasses_iff in E. lia.
  - intros [H1 H2].
    assert (E : Quorum.votekickPasses yes no rosterSize = true)
      by (apply votekickPasses_iff; lia).
    now rewrite E.
  - destruct (Quorum.votekickPasses yes no rosterSize) eqn:E; [discriminate|].
    intros _ [H1 H2].
    assert (E' : Quorum.votekickPasses yes no rosterSize = true)
      by (apply votekickPasses_iff; lia).
    congruence.
  - intros H.
    destruct (Quorum.votekickPasses yes no rosterSize) eqn:E; [|reflexivity].
    apply votekickPasses_iff in E. exfalso. apply H. lia.
  - intros H. apply requiredVotes_least in H.
    unfold Qle, Qmult, inject_Z. cbn [Qnum Qden]. lia.
  - intros H. apply requiredVotes_least.
    unfold Qle, Qmult, inject_Z in H. cbn [Qnum Qden] in H. lia.
  - destruct (Quorum.votekickPasses yes yes rosterSize) eqn:E; [|reflexivity].
    apply votekickPasses_iff in E. lia.
Qed.

(** ** The vote window *)

Lemma race_two (d1 d2 : Z) (r1 r2 : settled unit) :
  EventLoop.race [ {| EventLoop.delay := d1; EventLoop.outcome := r1 |};
                   {| EventLoop.delay := d2; EventLoop.outcome := r2 |} ]
  = EventLoop.Settled (if d1 <=? d2 then r1 else r2).
Proof.
  unfold EventLoop.race, EventLoop.run. cbn.
  destruct (d1 <=? d2); reflexivity.
Qed.

Lemma waitForVotes_resumes :
  waitForVotes
  = ([Ev_setTimeout VOTE_DURATION; Ev_setTimeout (VOTE_DURATION + 1000)],
     Normal tt).
Proof.
  unfold waitForVotes. rewrite race_two. reflexivity.
Qed.

(** C8: the window is a race of two timers, the first resolving after the
    duration (60000 ms) and the second rejecting 1000 ms later; the timer
    that fires first decides the race, the first timer fires strictly
    before the second (also if they were created in the other order), so
    the wait never fails and the handler always goes on after the
    window. *)
Theorem timeout_race_primary_wins :
  (forall (d1 d2 : Z) (r1 r2 : settled unit),
      EventLoop.race [ {| EventLoop.delay := d1; EventLoop.outcome := r1 |};
                       {| EventLoop.delay := d2; EventLoop.outcome := r2 |} ]
      = EventLoop.Settled (if d1 <=? d2 then r1 else r2))
  /\ (forall (duration : Z) (failure : error),
        EventLoop.race
          [ {| EventLoop.delay := duration;
               EventLoop.outcome := Fulfilled tt |};
            {| EventLoop.delay := duration + 1000;
               EventLoop.outcome := Rejected failure |} ]
        = EventLoop.Settled (Fulfilled tt)
        /\ EventLoop.race
             [ {| EventLoop.delay := duration + 1000;
                  EventLoop.outcome := Rejected failure |};
               {| EventLoop.delay := duration;
                  EventLoop.outcome := Fulfilled tt |} ]
           = EventLoop.Settled (Fulfilled tt))
  /\ VOTE_DURATION = 60000
  /\ waitForVotes
     = ([Ev_setTimeout 60000; Ev_setTimeout 61000], Normal tt).
Proof.
  split; [exact race_two|].
  split.
  - intros duration failure. rewrite !race_two.
    destruct (duration <=? duration + 1000) eqn:E1;
      [|apply Z.leb_gt in E1; lia].
    destruct (duration + 1000 <=? duration) eqn:E2;
      [apply Z.leb_le in E2; lia|].
    split; reflexivity.
  - split; [reflexivity|]. exact waitForVotes_resumes.
Qed.

(** ** Exploring the paths of the handler

    Each answer of a collaborator is examined when the handler reaches it,
    in the order of the source. *)

Arguments Quorum.votekickPasses : simpl never.
Arguments Quorum.requiredVotes : simpl never.
Arguments matches : simpl never.
Arguments JsString.trim : simpl never.
Arguments JsString.join : simpl never.
Arguments votes : simpl never.

Ltac flow_unfold :=
  unfold trace, outcome, execute, guarded, guarded_body, poll, tally,
    addReactions, findTarget, db_getServerConfig, return_reply, await_reply,
    msg_reply, log, await_optional, is_bot in *;
  rewrite ?waitForVotes_resumes in *.

Ltac flow_simpl :=
  cbn [bind try_catch await await_state emit ret throw return_ fst snd app
       negb mjoin mbind option_bind option_join fmap option_fmap option_map Promise_all2
       truthy_number] in *.

Ltac flow_step w :=
  match goal with
  | |- context [getServerConfig w 0%nat ?id] =>
      destruct (getServerConfig w 0%nat id) as [?config|?e] eqn:?
  | |- context [features_experiments_moderation ?c] =>
      is_var c; destruct (features_experiments_moderation c) eqn:?
  | |- context [match ?args with Some _ => _ | None => _ end] =>
      is_var args; destruct args as [?args|]
  | |- context [(length ?a <? 2)%nat] =>
      destruct (length a <? 2)%nat eqn:?
  | |- context [getServerConfig w 1%nat ?id] =>
      destruct (getServerConfig w 1%nat id) as [?serverConfig|?e] eqn:?
  | |- context [existsb ?f ?l] =>
      destruct (existsb f l) eqn:?
  | |- context [fetchMembers w 0%nat] =>
      destruct (fetchMembers w 0%nat) as [[?members|?e]|] eqn:?
  | |- context [List.find ?f ?l] =>
      destruct (List.find f l) as [?targetMember|] eqn:?
  | |- context [match user ?m with Some _ => _ | None => _ end] =>
      destruct (user m) as [?u|] eqn:?
  | |- context [if bot ?u then _ else _] =>
      destruct (bot u) eqn:?
  | |- context [reply w (VotekickStarted ?a ?b ?c)] =>
      destruct (reply w (VotekickStarted a b c)) as [[?voteMessage|]|?e] eqn:?
  | |- context [react w ?m YES_MARKER] =>
      destruct (react w m YES_MARKER) as [[]|?e] eqn:?
  | |- context [react w ?m NO_MARKER] =>
      destruct (react w m NO_MARKER) as [[]|?e] eqn:?
  | |- context [await (reply w ReactionError)] =>
      destruct (reply w ReactionError) as [?r|?e] eqn:?
  | |- context [fetchMessage w ?id] =>
      destruct (fetchMessage w id) as [[[?message|]|?e]|] eqn:?
  | |- context [fetchMembers w 1%nat] =>
      destruct (fetchMembers w 1%nat) as [[?members|?e]|] eqn:?
  | |- context [if ?n =? 0 then _ else _] =>
      destruct (n =? 0) eqn:?
  | |- context [Quorum.votekickPasses ?y ?n ?m] =>
      destruct (Quorum.votekickPasses y n m) eqn:?
  | |- context [kick w ?m] =>
      destruct (kick w m) as [[]|?e] eqn:?
  end; flow_simpl.

Ltac explore w := flow_unfold; flow_simpl; repeat flow_step w.


Ltac in_cases H :=
  repeat (destruct H as [H|H]; [try discriminate H|]); try contradiction H.

Ltac pick := repeat (first [left; reflexivity | right]).

(** ** The removal *)

(** C3: the removal is invoked at most once in a poll, and only after the
    quorum decision on the values read at tally time was Passed; when the
    removal succeeds the report is Passed with the tally, when it fails
    the report is PassedButActionFailed, which is not Failed, and the
    removal is not tried again. *)
Theorem removal_only_after_passed (w : World) (args : option (list string)) :
  (kicks (trace w args) <= 1)%nat
  /\ forall targetMember : Member,
       In (Ev_kick targetMember) (trace w args) ->
       exists (pre post : list event) (voteMessage message : Message)
              (members : list Member) (reason : string),
         trace w args = pre ++ Ev_kick targetMember :: post
         /\ kicks pre = 0%nat
         /\ In (Ev_fetchMessage (_id voteMessage)) pre
         /\ fetchMessage w (_id voteMessage) = Some (Fulfilled (Some message))
         /\ fetchMembers w 1 = Some (Fulfilled members)
         /\ Quorum.quorum (votes message YES_MARKER) (votes message NO_MARKER)
                          (Z.of_nat (length members)) = Quorum.Passed
         /\ match kick w targetMember with
            | Fulfilled _ =>
                let report :=
                  VotekickSuccessful (user targetMember ≫= username)
                    (votes message YES_MARKER) (votes message NO_MARKER) reason in
                post = [Ev_reply report]
                /\ outcome w args = Return (reply w report)
                /\ outcome_of report
                   = Some (Spec.Passed {| Spec.yes := votes message YES_MARKER;
                                          Spec.no := votes message NO_MARKER |})
            | Rejected e =>
                post = [Ev_log "Failed to kick user after successful votekick:" e;
                        Ev_reply KickFailed]
                /\ outcome w args = Return (reply w KickFailed)
                /\ outcome_of KickFailed = Some Spec.PassedButActionFailed
                /\ Spec.PassedButActionFailed <> Spec.Failed
            end.
Proof.
  split.
  - explore w; cbn; lia.
  - intros tm. explore w; intros H; cbn in H; in_cases H.
    all: injection H as <-; try congruence.
    all: eexists [_;_;_;_;_;_;_;_;_;_], _, _, _, _, _.
    all: cbn [app]; split; [reflexivity|].
    all: split; [reflexivity|].
    all: split; [do 8 right; left; reflexivity|].
    all: split; [eassumption|].
    all: split; [reflexivity|].
    all: split; [unfold Quorum.quorum;
                 match goal with Hp : Quorum.votekickPasses _ _ _ = true |- _ =>
                   rewrite Hp end; reflexivity|].
    all: cbn zeta; repeat split; try reflexivity; try discriminate.
    all: try match goal with Hu : user _ = _ |- _ => rewrite Hu end.
    all: try reflexivity; try congruence.
    Unshelve. all: exact EmptyString.
Qed.

Lemma removal_only_after_passed_witness :
  In (Ev_kick Scenario.alice)
     (trace (Scenario.base 7 2 12) Scenario.args_alice)
  /\ exists pre post : list event,
       trace (Scenario.base 7 2 12) Scenario.args_alice
       = pre ++ Ev_kick Scenario.alice :: post
       /\ kicks pre = 0%nat.
Proof.
  assert (H : In (Ev_kick Scenario.alice)
                 (trace (Scenario.base 7 2 12) Scenario.args_alice))
    by (vm_compute; pick).
  split; [exact H|].
  destruct (proj2 (removal_only_after_passed _ _) _ H)
    as (pre & post & _ & _ & _ & _ & E & K & _).
  exists pre, post. split; [exact E | exact K].
Defined.

(** ** The member count at tally time *)

Ltac split_tail :=
  first [ eexists [_;_;_;_;_;_;_;_;_;_]; split; [reflexivity|]
        | eexists [_;_;_;_;_;_;_;_;_]; split; [reflexivity|] ].

Lemma falsy_member_count_raises (w : World) (args : option (list string)) :
  fetchMembers w 1 = None \/ fetchMembers w 1 = Some (Fulfilled []) ->
  kicks (trace w args) = 0%nat
  /\ List.filter is_decision (trace w args) = []
  /\ forall (id : string) (message : Message),
       In (Ev_fetchMessage id) (trace w args) ->
       fetchMessage w id = Some (Fulfilled (Some message)) ->
       exists pre : list event,
         trace w args
         = pre ++ [Ev_log TOP_LEVEL_LOG (Error "Failed to fetch member count");
                   Ev_reply (CommandError (Error "Failed to fetch member count"))]
         /\ List.filter is_top_level_log pre = []
         /\ outcome w args
            = Return (reply w (CommandError (Error "Failed to fetch member count"))).
Proof.
  intros H.
  destruct H as [H|H]; flow_unfold; rewrite H; flow_simpl; repeat flow_step w.
  all: try match goal with
           | Hz : (Z.of_nat (length []) =? 0) = false |- _ => discriminate Hz
           end.
  all: split; [reflexivity|]; split; [reflexivity|].
  all: intros id msg Hin Hf; cbn in Hin; in_cases Hin.
  all: injection Hin as <-; try congruence.
  all: split_tail; split; reflexivity.
Qed.

(** C10: when the member count read at tally time is absent or 0, the
    handler raises before the quorum decision: no decision is reported,
    the removal is never invoked, and a poll that got as far as the tally
    ends in the handler of the outer [try] with the error of an
    unavailable roster. *)
Theorem falsy_member_count_blocks_decision
        (w : World) (args : option (list string)) :
  fetchMembers w 1 = None \/ fetchMembers w 1 = Some (Fulfilled []) ->
  ~ (exists m, In (Ev_kick m) (trace w args))
  /\ (forall d, In (Ev_reply d) (trace w args) ->
             outcome_of d <> Some Spec.Failed
             /\ outcome_of d <> Some Spec.PassedButActionFailed
             /\ forall t, outcome_of d <> Some (Spec.Passed t))
  /\ forall (id : string) (message : Message),
       In (Ev_fetchMessage id) (trace w args) ->
       fetchMessage w id = Some (Fulfilled (Some message)) ->
       exists pre : list event,
         trace w args
         = pre ++ [Ev_log "Error in votekick command:"
                          (Error "Failed to fetch member count");
                   Ev_reply (CommandError (Error "Failed to fetch member count"))]
         /\ outcome w args
            = Return (reply w (CommandError (Error "Failed to fetch member count"))).
Proof.
  intros H.
  destruct (falsy_member_count_raises w args H) as (K & D & R).
  split; [|split].
  - intros [m Hm].
    assert (Hf : In (Ev_kick m) (List.filter is_kick (trace w args)))
      by (apply filter_In; split; [exact Hm | reflexivity]).
    unfold kicks in K.
    destruct (List.filter is_kick (trace w args)); [inversion Hf | discriminate K].
  - intros d Hd.
    assert (Hn : is_decision (Ev_reply d) = false).
    { destruct (is_decision (Ev_reply d)) eqn:E; [|reflexivity].
      assert (Hf : In (Ev_reply d) (List.filter is_decision (trace w args)))
        by (apply filter_In; split; assumption).
      rewrite D in Hf. inversion Hf. }
    destruct d; cbn in Hn; try discriminate Hn; cbn; repeat split;
      try discriminate; intros; discriminate.
  - intros id message Hin Hf.
    destruct (R id message Hin Hf) as (pre & E & _ & O).
    exists pre. split; assumption.
Qed.

Lemma falsy_member_count_blocks_decision_witness :
  exists pre : list event,
    trace (Scenario.base 1 0 0) Scenario.args_alice
    = pre ++ [Ev_log "Error in votekick command:"
                     (Error "Failed to fetch member count");
              Ev_reply (CommandError (Error "Failed to fetch member count"))].
Proof.
  assert (H : fetchMembers (Scenario.base 1 0 0) 1 = None
              \/ fetchMembers (Scenario.base 1 0 0) 1 = Some (Fulfilled []))
    by (right; reflexivity).
  destruct (falsy_member_count_blocks_decision
              (Scenario.base 1 0 0) Scenario.args_alice H) as (_ & _ & R).
  destruct (R "poll-1" (Scenario.counted 1 0)) as (pre & E & _).
  - vm_compute; pick.
  - reflexivity.
  - exists pre. exact E.
Defined.

(** C2, as the code has it: a roster of size 0 at tally time is handled as
    a member count that could not be fetched.  Whatever the votes, with 1
    yes and 0 no as with 0 yes and 0 no, a poll that got as far as the
    tally reports the error of the outer [try], reports no decision and
    removes nobody; the quorum arithmetic on its own maps (1, 0, 0) to
    Passed and (0, 0, 0) to Failed. *)
Theorem empty_roster_is_fetch_failure
        (w : World) (args : option (list string))
        (id : string) (message : Message) :
  fetchMembers w 1 = Some (Fulfilled []) ->
  In (Ev_fetchMessage id) (trace w args) ->
  fetchMessage w id = Some (Fulfilled (Some message)) ->
  (exists pre : list event,
      trace w args
      = pre ++ [Ev_log "Error in votekick command:"
                       (Error "Failed to fetch member count");
                Ev_reply (CommandError (Error "Failed to fetch member count"))]
      /\ List.filter is_top_level_log pre = [])
  /\ outcome w args
     = Return (reply w (CommandError (Error "Failed to fetch member count")))
  /\ outcome_of (CommandError (Error "Failed to fetch member count"))
     = Some (Spec.Aborted Spec.UnknownError)
  /\ kicks (trace w args) = 0%nat
  /\ List.filter is_decision (trace w args) = []
  /\ Quorum.quorum 1 0 0 = Quorum.Passed
  /\ Quorum.quorum 0 0 0 = Quorum.Failed.
Proof.
  intros H Hin Hf.
  destruct (falsy_member_count_raises w args (or_intror H)) as (K & D & R).
  destruct (R id message Hin Hf) as (pre & E & T & O).
  split; [exists pre; split; assumption|].
  repeat split; assumption || reflexivity.
Qed.

Lemma empty_roster_is_fetch_failure_witness :
  outcome (Scenario.base 1 0 0) Scenario.args_alice
  = Return (reply (Scenario.base 1 0 0)
                  (CommandError (Error "Failed to fetch member count")))
  /\ outcome (Scenario.base 0 0 0) Scenario.args_alice
     = Return (reply (Scenario.base 0 0 0)
                     (CommandError (Error "Failed to fetch member count"))).
Proof.
  split.
  - refine (proj1 (proj2 (empty_roster_is_fetch_failure
                            (Scenario.base 1 0 0) Scenario.args_alice
                            "poll-1" (Scenario.counted 1 0) _ _ _))).
    + reflexivity.
    + vm_compute; pick.
    + reflexivity.
  - refine (proj1 (proj2 (empty_roster_is_fetch_failure
                            (Scenario.base 0 0 0) Scenario.args_alice
                            "poll-1" (Scenario.counted 0 0) _ _ _))).
    + reflexivity.
    + vm_compute; pick.
    + reflexivity.
Defined.

(** C2, as stated, fails: with a roster of size 0, 1 yes vote and 0 no
    votes the poll is not Passed (and with no votes at all it is not
    Failed): the handler reports the error of the outer [try]. *)
Lemma empty_roster_never_decides :
  fetchMembers (Scenario.base 1 0 0) 1 = Some (Fulfilled [])
  /\ votes (Scenario.counted 1 0) YES_MARKER = 1
  /\ votes (Scenario.counted 1 0) NO_MARKER = 0
  /\ omap outcome_of (replies (trace (Scenario.base 1 0 0) Scenario.args_alice))
     = [Spec.Aborted Spec.UnknownError]
  /\ kicks (trace (Scenario.base 1 0 0) Scenario.args_alice) = 0%nat
  /\ fetchMembers (Scenario.base 0 0 0) 1 = Some (Fulfilled [])
  /\ votes (Scenario.counted 0 0) YES_MARKER = 0
  /\ votes (Scenario.counted 0 0) NO_MARKER = 0
  /\ omap outcome_of (replies (trace (Scenario.base 0 0 0) Scenario.args_alice))
     = [Spec.Aborted Spec.UnknownError].
Proof.
  repeat split; vm_compute; reflexivity.
Qed.

(** ** The tally *)

Lemma votes_missing (message : Message) (marker : string) :
  reactions message = None
  \/ (exists r, reactions message = Some r /\ r !! marker = None) ->
  votes message marker = 0.
Proof.
  unfold votes. intros [H | (r & H & Hr)]; rewrite H; cbn.
  - reflexivity.
  - rewrite Hr. reflexivity.
Qed.

Lemma votes_nonneg (message : Message) (marker : string) :
  0 <= votes message marker.
Proof.
  unfold votes. destruct (reactions message ≫= _); lia.
Qed.

Lemma truthy_number_nonzero (n : Z) : n <> 0 -> truthy_number (Some n) = Some n.
Proof.
  intros H. unfold truthy_number.
  destruct (Z.eqb_spec n 0); [contradiction | reflexivity].
Qed.

(** What [tally] does once the announcement and a roster that is not
    empty have been read. *)
Lemma tally_decides (w : World) (targetMember : Member) (reason : string)
      (voteMessage message : Message) (members : list Member) :
  fetchMessage w (_id voteMessage) = Some (Fulfilled (Some message)) ->
  fetchMembers w 1 = Some (Fulfilled members) ->
  members <> [] ->
  exists (post : list event) (v : settled (option Message)),
    tally w targetMember reason voteMessage
    = ([Ev_fetchMessage (_id voteMessage); Ev_fetchMembers] ++ post, Return v)
    /\ match Quorum.quorum (votes message YES_MARKER) (votes message NO_MARKER)
                           (Z.of_nat (length members)) with
       | Quorum.Failed =>
           post = [Ev_reply (VotekickFailed (user targetMember ≫= username)
                               (votes message YES_MARKER)
                               (votes message NO_MARKER)
                               (Quorum.requiredVotes (Z.of_nat (length members))))]
       | Quorum.Passed =>
           exists post', post = Ev_kick targetMember :: post'
       end.
Proof.
  intros Hm Hr Hne.
  assert (Hn : Z.of_nat (length members) <> 0)
    by (destruct members; [contradiction | cbn [length]; lia]).
  unfold tally, await_optional, return_reply, msg_reply, log, Quorum.quorum.
  rewrite Hm, Hr. flow_simpl.
  pose proof (truthy_number_nonzero _ Hn) as Ht.
  unfold truthy_number in Ht.
  destruct (Z.of_nat (length members) =? 0); [discriminate Ht|].
  destruct (Quorum.votekickPasses _ _ _); flow_simpl.
  - destruct (kick w targetMember) as [[]|e]; flow_simpl;
      eexists _, _; (split; [reflexivity|]); eexists; reflexivity.
  - eexists _, _. split; reflexivity.
Qed.

(** C9: a vote marker that is absent from the reactions of the re-fetched
    announcement counts as zero votes for its side and is no error: the
    tally goes on to read the roster and to the decision, which for a
    missing yes marker can only be Failed. *)
Theorem missing_marker_counts_zero
        (w : World) (targetMember : Member) (reason : string)
        (voteMessage message : Message) (members : list Member)
        (marker : string) :
  fetchMessage w (_id voteMessage) = Some (Fulfilled (Some message)) ->
  fetchMembers w 1 = Some (Fulfilled members) ->
  members <> [] ->
  marker = YES_MARKER \/ marker = NO_MARKER ->
  reactions message = None
  \/ (exists r, reactions message = Some r /\ r !! marker = None) ->
  votes message marker = 0
  /\ exists (post : list event) (v : settled (option Message)),
       tally w targetMember reason voteMessage
       = ([Ev_fetchMessage (_id voteMessage); Ev_fetchMembers] ++ post, Return v)
       /\ match Quorum.quorum (votes message YES_MARKER)
                              (votes message NO_MARKER)
                              (Z.of_nat (length members)) with
          | Quorum.Failed =>
              post = [Ev_reply (VotekickFailed (user targetMember ≫= username)
                                  (votes message YES_MARKER)
                                  (votes message NO_MARKER)
                                  (Quorum.requiredVotes
                                     (Z.of_nat (length members))))]
          | Quorum.Passed =>
              marker = NO_MARKER
              /\ Quorum.quorum (votes message YES_MARKER) 0
                               (Z.of_nat (length members)) = Quorum.Passed
              /\ exists post', post = Ev_kick targetMember :: post'
          end.
Proof.
  intros Hm Hr Hne Hk Hmiss.
  pose proof (votes_missing message marker Hmiss) as Hz.
  split; [exact Hz|].
  destruct (tally_decides w targetMember reason voteMessage message members
              Hm Hr Hne) as (post & v & E & D).
  exists post, v. split; [exact E|].
  destruct (Quorum.quorum (votes message YES_MARKER) (votes message NO_MARKER)
              (Z.of_nat (length members))) eqn:Q; [|exact D].
  destruct Hk as [-> | ->].
  - exfalso. unfold Quorum.quorum in Q.
    destruct (Quorum.votekickPasses _ _ _) eqn:P; [|discriminate Q].
    apply votekickPasses_iff in P.
    pose proof (votes_nonneg message NO_MARKER). lia.
  - split; [reflexivity|]. split; [|exact D].
    rewrite <- Hz. exact Q.
Qed.

Lemma missing_marker_counts_zero_witness :
  votes (Scenario.only_yes 7) NO_MARKER = 0
  /\ exists (post : list event) (v : settled (option Message)),
       tally (Scenario.with_message
                (Some (Fulfilled (Some (Scenario.only_yes 7))))
                (Scenario.base 7 0 12))
             Scenario.alice "spamming links" Scenario.announcement
       = ([Ev_fetchMessage "poll-1"; Ev_fetchMembers] ++ post, Return v).
Proof.
  destruct (missing_marker_counts_zero
              (Scenario.with_message
                 (Some (Fulfilled (Some (Scenario.only_yes 7))))
                 (Scenario.base 7 0 12))
              Scenario.alice "spamming links" Scenario.announcement
              (Scenario.only_yes 7) (Scenario.roster 12) NO_MARKER)
    as (Z0 & post & v & E & _).
  - reflexivity.
  - reflexivity.
  - vm_compute; discriminate.
  - right; reflexivity.
  - right. eexists. split; [reflexivity|]. vm_compute. reflexivity.
  - split; [exact Z0|]. exists post, v. exact E.
Defined.

(** ** The eligibility checks *)

Lemma includes_In (x : string) (l : list string) :
  existsb (String.eqb x) l = true <-> In x l.
Proof.
  rewrite existsb_exists. split.
  - intros (y & Hy & E). apply String.eqb_eq in E. now subst.
  - intros H. exists x. split; [exact H | apply String.eqb_refl].
Qed.

Lemma includes_not_In (x : string) (l : list string) :
  ~ In x l -> existsb (String.eqb x) l = false.
Proof.
  intros H. destruct (existsb (String.eqb x) l) eqn:E; [|reflexivity].
  apply includes_In in E. contradiction.
Qed.

(** Target resolution always completes normally: its own [catch] takes
    every fault of the roster. *)
Lemma findTarget_normal (w : World) (a : list string) :
  exists t o, findTarget w a = (t, Normal o).
Proof.
  unfold findTarget, await_optional, log.
  destruct (fetchMembers w 0) as [[members|e]|]; flow_simpl; eauto.
Qed.

(** A poll starts with its announcement. *)
Lemma poll_announces (w : World) (a : list string) (targetMember : Member) :
  exists post c,
    poll w a targetMember
    = (Ev_reply (VotekickStarted (user targetMember ≫= username)
                   (JsString.trim (JsString.join " " (tail a)))
                   (author_username w)) :: post, c).
Proof.
  unfold poll, await_reply, msg_reply.
  destruct (reply w _) as [[voteMessage|]|e]; flow_simpl; eauto.
  destruct (addReactions w voteMessage) as [t1 [[]|e|v|]]; flow_simpl; eauto.
  rewrite waitForVotes_resumes. flow_simpl.
  destruct (tally w targetMember _ voteMessage) as [t2 c2]. eauto.
Qed.

(** C5: the checks run in the order moderation enabled, number of
    arguments, blocklist, target resolution, automated account, and the
    first that fails decides the reply; a blocked initiator is answered
    AccessDenied whatever the roster and the target argument are, since
    the roster is not read before the blocklist. *)
Theorem eligibility_order
        (w : World) (args : option (list string)) (config : ServerConfig) :
  getServerConfig w 0 (JsString.falsy_or_empty (serverId w)) = Fulfilled config ->
  (features_experiments_moderation config = false ->
   execute w args
   = ([Ev_getServerConfig (JsString.falsy_or_empty (serverId w));
       Ev_reply FeatureDisabled],
      Return (reply w FeatureDisabled)))
  /\ (features_experiments_moderation config = true ->
      (forall a, args = Some a -> (length a < 2)%nat) ->
      execute w args
      = ([Ev_getServerConfig (JsString.falsy_or_empty (serverId w));
          Ev_reply InvalidUsage],
         Return (reply w InvalidUsage)))
  /\ (forall (a : list string) (serverConfig : ServerConfig),
        features_experiments_moderation config = true ->
        args = Some a ->
        (2 <= length a)%nat ->
        getServerConfig w 1 (JsString.nullish_or_empty (serverId w))
        = Fulfilled serverConfig ->
        (In (JsString.nullish_or_empty (author_id w))
            (security_blockedUsers serverConfig) ->
         execute w args
         = ([Ev_getServerConfig (JsString.falsy_or_empty (serverId w));
             Ev_getServerConfig (JsString.nullish_or_empty (serverId w));
             Ev_reply AccessDenied],
            Return (reply w AccessDenied)))
        /\ (~ In (JsString.nullish_or_empty (author_id w))
                 (security_blockedUsers serverConfig) ->
            match snd (findTarget w a) with
            | Normal None =>
                execute w args
                = (Ev_getServerConfig (JsString.falsy_or_empty (serverId w))
                   :: Ev_getServerConfig (JsString.nullish_or_empty (serverId w))
                   :: fst (findTarget w a) ++ [Ev_reply UserNotFound],
                   Return (reply w UserNotFound))
            | Normal (Some targetMember) =>
                if is_bot targetMember
                then
                  execute w args
                  = (Ev_getServerConfig (JsString.falsy_or_empty (serverId w))
                     :: Ev_getServerConfig (JsString.nullish_or_empty (serverId w))
                     :: fst (findTarget w a) ++ [Ev_reply CannotVotekickBot],
                     Return (reply w CannotVotekickBot))
                else
                  exists post,
                    trace w args
                    = Ev_getServerConfig (JsString.falsy_or_empty (serverId w))
                      :: Ev_getServerConfig (JsString.nullish_or_empty (serverId w))
                      :: fst (findTarget w a)
                      ++ Ev_reply (VotekickStarted
                                     (user targetMember ≫= username)
                                     (JsString.trim (JsString.join " " (tail a)))
                                     (author_username w))
                      :: post
            | _ => False
            end)).
Proof.
  intros H0. split; [|split].
  - intros Hm.
    unfold execute, db_getServerConfig, return_reply, msg_reply.
    rewrite H0. flow_simpl. rewrite Hm. reflexivity.
  - intros Hm Ha.
    unfold execute, db_getServerConfig, return_reply, msg_reply.
    rewrite H0. flow_simpl. rewrite Hm. cbn [negb].
    destruct args as [a|]; [|reflexivity].
    specialize (Ha a eq_refl).
    destruct (length a <? 2)%nat eqn:E; [reflexivity|].
    apply Nat.ltb_ge in E. lia.
  - intros a serverConfig Hm -> Hl H1.
    assert (E : (length a <? 2)%nat = false) by (apply Nat.ltb_ge; lia).
    unfold trace, execute, guarded, guarded_body, db_getServerConfig,
      return_reply, msg_reply, log.
    rewrite H0. flow_simpl. rewrite Hm, E. cbn [negb].
    rewrite H1. flow_simpl.
    split.
    + intros Hb. apply includes_In in Hb. rewrite Hb. reflexivity.
    + intros Hnb. rewrite (includes_not_In _ _ Hnb).
      destruct (findTarget_normal w a) as (t & o & F). rewrite F.
      flow_simpl. destruct o as [targetMember|]; flow_simpl.
      * destruct (is_bot targetMember); flow_simpl; [reflexivity|].
        destruct (poll_announces w a targetMember) as (post & c & P).
        rewrite P. flow_simpl.
        destruct c; flow_simpl; eexists;
          rewrite <- ?app_assoc, <- ?app_comm_cons; reflexivity.
      * reflexivity.
Qed.

Lemma eligibility_order_witness :
  snd (findTarget (Scenario.with_author (Some "mallory") (Scenario.base 7 2 12))
                  ["zed"; "because"])
  = Normal None
  /\ execute (Scenario.with_author (Some "mallory") (Scenario.base 7 2 12))
             Scenario.args_nobody
     = ([Ev_getServerConfig "srv"; Ev_getServerConfig "srv";
         Ev_reply AccessDenied],
        Return (Fulfilled (Some {| _id := "reply"; reactions := None |}))).
Proof.
  split; [vm_compute; reflexivity|].
  refine (proj1 (proj2 (proj2 (eligibility_order
            (Scenario.with_author (Some "mallory") (Scenario.base 7 2 12))
            Scenario.args_nobody (Scenario.config true) _))
            ["zed"; "because"] (Scenario.config true) _ _ _ _) _).
  - reflexivity.
  - reflexivity.
  - reflexivity.
  - cbn; lia.
  - reflexivity.
  - left; reflexivity.
Defined.

(** C7: when the roster cannot be fetched during target resolution, the
    fault is logged by the inner [catch] and goes no further: the handler
    answers UserNotFound and returns exactly as it does when the roster
    is fetched and no member matches. *)
Theorem target_resolution_fault_swallowed
        (w : World) (a : list string) (config serverConfig : ServerConfig)
        (e : error) :
  getServerConfig w 0 (JsString.falsy_or_empty (serverId w)) = Fulfilled config ->
  features_experiments_moderation config = true ->
  (2 <= length a)%nat ->
  getServerConfig w 1 (JsString.nullish_or_empty (serverId w))
  = Fulfilled serverConfig ->
  ~ In (JsString.nullish_or_empty (author_id w))
       (security_blockedUsers serverConfig) ->
  fetchMembers w 0 = Some (Rejected e) ->
  execute w (Some a)
  = ([Ev_getServerConfig (JsString.falsy_or_empty (serverId w));
      Ev_getServerConfig (JsString.nullish_or_empty (serverId w));
      Ev_fetchMembers;
      Ev_log "Error fetching members:" e;
      Ev_reply UserNotFound],
     Return (reply w UserNotFound))
  /\ outcome_of UserNotFound = Some (Spec.Aborted Spec.TargetNotFound)
  /\ forall members : list Member,
       List.find (matches (nth 0 a EmptyString)) members = None ->
       execute (Scenario.with_members 0 (Some (Fulfilled members)) w) (Some a)
       = ([Ev_getServerConfig (JsString.falsy_or_empty (serverId w));
           Ev_getServerConfig (JsString.nullish_or_empty (serverId w));
           Ev_fetchMembers;
           Ev_reply UserNotFound],
          Return (reply w UserNotFound)).
Proof.
  intros H0 Hm Hl H1 Hnb Hf.
  assert (E : (length a <? 2)%nat = false) by (apply Nat.ltb_ge; lia).
  apply includes_not_In in Hnb.
  split; [|split; [reflexivity|]].
  - flow_unfold. rewrite H0. flow_simpl. rewrite Hm, E. flow_simpl.
    rewrite H1. flow_simpl. rewrite Hnb, Hf. reflexivity.
  - intros members Hnone.
    flow_unfold.
    cbn [Scenario.with_members getServerConfig fetchMembers serverId author_id
         reply Nat.eqb].
    rewrite H0. flow_simpl. rewrite Hm, E. flow_simpl.
    rewrite H1. flow_simpl. rewrite Hnb. flow_simpl.
    rewrite Hnone. reflexivity.
Qed.

Lemma target_resolution_fault_swallowed_witness :
  replies (trace (Scenario.with_members 0 (Some (Rejected Scenario.down))
                    (Scenario.base 7 2 12))
                 Scenario.args_alice)
  = [UserNotFound].
Proof.
  unfold trace, Scenario.args_alice.
  rewrite (proj1 (target_resolution_fault_swallowed
                    (Scenario.with_members 0 (Some (Rejected Scenario.down))
                       (Scenario.base 7 2 12))
                    [" alice "; "spamming"; "links"]
                    (Scenario.config true) (Scenario.config true)
                    Scenario.down
                    eq_refl eq_refl
                    ltac:(cbn; lia) eq_refl
                    ltac:(cbn; intros [H|[]]; discriminate H) eq_refl)).
  reflexivity.
Defined.

(** ** The vote markers *)

Ltac same_answer :=
  repeat match goal with
         | H1 : ?x = _, H2 : ?x = _ |- _ =>
             rewrite H1 in H2;
             first [ discriminate H2
                   | injection H2; clear H2; intros; subst ]
         end.

(** C6: when one of the two vote markers cannot be attached, the poll is
    aborted with the reaction failure and nothing of the later stages
    runs: no timer, no re-fetch of the announcement, no second reading of
    the roster, no decision and no removal.  The abort is logged and
    reported at once; the handler then returns, unless the report itself
    cannot be delivered, which the outer [catch] reports in turn. *)
Theorem reaction_failure_aborts
        (w : World) (args : option (list string))
        (target : option string) (reason : string) (startedBy : option string)
        (voteMessage : Message) :
  In (Ev_reply (VotekickStarted target reason startedBy)) (trace w args) ->
  reply w (VotekickStarted target reason startedBy)
  = Fulfilled (Some voteMessage) ->
  (exists e, react w voteMessage YES_MARKER = Rejected e)
  \/ (exists e, react w voteMessage NO_MARKER = Rejected e) ->
  exists (pre : list event) (e : error) (post : list event),
    trace w args
    = pre ++ [Ev_react YES_MARKER; Ev_react NO_MARKER;
              Ev_log "Failed to add vote reactions:" e;
              Ev_reply ReactionError] ++ post
    /\ (react w voteMessage YES_MARKER = Rejected e
        \/ react w voteMessage NO_MARKER = Rejected e)
    /\ outcome_of ReactionError = Some (Spec.Aborted Spec.ReactionSetupFailure)
    /\ List.filter is_later_stage (trace w args) = []
    /\ length (List.filter is_fetchMembers (trace w args)) = 1%nat
    /\ match reply w ReactionError with
       | Fulfilled _ =>
           post = [] /\ outcome w args = Return (Fulfilled None)
       | Rejected e' =>
           post = [Ev_log "Error in votekick command:" e';
                   Ev_reply (CommandError e')]
           /\ outcome w args = Return (reply w (CommandError e'))
       end.
Proof.
  intros Hin Hr Hfail. revert Hin.
  explore w; intros Hin; cbn in Hin; in_cases Hin.
  all: injection Hin as <- <- <-.
  all: same_answer.
  all: try (destruct Hfail as [[e' Hf]|[e' Hf]]; congruence).
  all: eexists [_;_;_;_], _, _; (split; [reflexivity|]).
  all: (split; [destruct (no_rejects_first w); auto|]).
  all: repeat split; reflexivity.
Qed.

Lemma reaction_failure_aborts_witness :
  exists (pre : list event) (e : error),
    trace (Scenario.with_react NO_MARKER (Rejected Scenario.down)
             (Scenario.base 7 2 12))
          Scenario.args_alice
    = pre ++ [Ev_react YES_MARKER; Ev_react NO_MARKER;
              Ev_log "Failed to add vote reactions:" e;
              Ev_reply ReactionError].
Proof.
  destruct (reaction_failure_aborts
              (Scenario.with_react NO_MARKER (Rejected Scenario.down)
                 (Scenario.base 7 2 12))
              Scenario.args_alice
              (Some "Alice") "spamming links" (Some "Carol")
              Scenario.announcement)
    as (pre & e & post & E & _ & _ & _ & _ & P).
  - vm_compute; pick.
  - reflexivity.
  - right. exists Scenario.down. reflexivity.
  - cbn in P. destruct P as [-> _].
    exists pre, e. rewrite E. reflexivity.
Defined.

(** ** The outer [catch] *)

Lemma guarded_catches (w : World) (a : list string) :
  guarded w a
  = match guarded_body w a with
    | (t, Throw e) =>
        (t ++ [Ev_log "Error in votekick command:" e;
               Ev_reply (CommandError e)],
         Return (reply w (CommandError e)))
    | r => r
    end.
Proof.
  unfold guarded, try_catch, log, return_reply, msg_reply.
  destruct (guarded_body w a) as [t [x|e|v|]]; reflexivity.
Qed.

Ltac split_last_two :=
  match goal with
  | |- exists pre, ?t = _ /\ _ =>
      exists (firstn (length t - 2) t); cbn [length Nat.sub firstn app]
  end.

(** C4, as the code has it: the outer [try] starts after the check that
    moderation is enabled and after the check of the number of arguments.
    A fault of the first reading of the configuration therefore leaves the
    handler as it is, without log and without reply.  A fault thrown
    later and not handled by an inner [catch] is caught by the outer
    [catch], once: it is logged and reported in one generic message that
    contains the cause, as the last thing the handler does. *)
Theorem outer_catch_covers_guarded_part
        (w : World) (args : option (list string)) :
  (forall e,
      getServerConfig w 0 (JsString.falsy_or_empty (serverId w)) = Rejected e ->
      execute w args
      = ([Ev_getServerConfig (JsString.falsy_or_empty (serverId w))], Throw e))
  /\ (forall config,
        getServerConfig w 0 (JsString.falsy_or_empty (serverId w))
        = Fulfilled config ->
        (forall e, outcome w args <> Throw e)
        /\ forall a e,
            args = Some a ->
            features_experiments_moderation config = true ->
            (2 <= length a)%nat ->
            snd (guarded_body w a) = Throw e ->
            execute w args
            = (Ev_getServerConfig (JsString.falsy_or_empty (serverId w))
               :: fst (guarded_body w a)
               ++ [Ev_log "Error in votekick command:" e;
                   Ev_reply (CommandError e)],
               Return (reply w (CommandError e))))
  /\ (forall e,
        In (Ev_log "Error in votekick command:" e) (trace w args) ->
        exists pre,
          trace w args
          = pre ++ [Ev_log "Error in votekick command:" e;
                    Ev_reply (CommandError e)]
          /\ List.filter is_top_level_log pre = []
          /\ outcome w args = Return (reply w (CommandError e)))
  /\ (forall e,
        render (CommandError e)
        = Embeds
            [ {| title := "Error";
                 description :=
                   "An error occurred while executing the votekick" +:+ nl
                   +:+ " ```" +:+ nl +:+ error_to_string e +:+ nl +:+ "```";
                 colour := "#ff0000" |} ]).
Proof.
  split; [|split; [|split]].
  - intros e H. unfold execute, db_getServerConfig.
    rewrite H. reflexivity.
  - intros config H. split.
    + intros e. explore w; discriminate.
    + intros a e -> Hm Hl Hb.
      assert (E : (length a <? 2)%nat = false) by (apply Nat.ltb_ge; lia).
      unfold execute, db_getServerConfig.
      rewrite H. flow_simpl. rewrite Hm, E. cbn [negb].
      rewrite guarded_catches.
      destruct (guarded_body w a) as [t c]. cbn [snd] in Hb. subst c.
      reflexivity.
  - intros e. explore w; intros Hin; cbn in Hin; in_cases Hin.
    all: injection Hin as <-.
    all: split_last_two; repeat split; reflexivity.
  - intros e. reflexivity.
Qed.

Lemma outer_catch_covers_guarded_part_witness :
  execute (Scenario.with_config 1 (Rejected Scenario.down) (Scenario.base 7 2 12))
          Scenario.args_alice
  = ([Ev_getServerConfig "srv"; Ev_getServerConfig "srv";
      Ev_log "Error in votekick command:" Scenario.down;
      Ev_reply (CommandError Scenario.down)],
     Return (Fulfilled (Some {| _id := "reply"; reactions := None |}))).
Proof.
  refine (proj2 (proj1 (proj2 (outer_catch_covers_guarded_part
            (Scenario.with_config 1 (Rejected Scenario.down)
               (Scenario.base 7 2 12))
            Scenario.args_alice)) (Scenario.config true) _)
            [" alice "; "spamming"; "links"] Scenario.down _ _ _ _).
  - reflexivity.
  - reflexivity.
  - reflexivity.
  - cbn; lia.
  - reflexivity.
Defined.

(** C4, as stated, fails: a fault of the check that moderation is enabled
    is not caught.  It is neither logged nor reported, and the promise of
    the handler is rejected with it. *)
Lemma moderation_check_fault_escapes :
  getServerConfig
    (Scenario.with_config 0 (Rejected Scenario.down) (Scenario.base 7 2 12))
    0 "srv"
  = Rejected Scenario.down
  /\ execute
       (Scenario.with_config 0 (Rejected Scenario.down) (Scenario.base 7 2 12))
       Scenario.args_alice
     = ([Ev_getServerConfig "srv"], Throw Scenario.down)
  /\ promise_of
       (outcome
          (Scenario.with_config 0 (Rejected Scenario.down) (Scenario.base 7 2 12))
          Scenario.args_alice)
     = Some (Rejected Scenario.down).
Proof.
  repeat split.
Qed.

(** * Further properties of the code *)

(** ** Strings *)





Lemma string_app_cons (a : Ascii.ascii) (s1 s2 : string) :
  String a s1 +:+ s2 = String a (s1 +:+ s2).
Proof. reflexivity. Qed.

Lemma string_app_empty_r (s : string) : s +:+ "" = s.
Proof.
  induction s as [|a s IH]; [reflexivity|].
  rewrite string_app_cons, IH. reflexivity.
Qed.

Lemma string_app_assoc (a b c : string) : (a +:+ b) +:+ c = a +:+ (b +:+ c).
Proof.
  induction a as [|x a IH]; [reflexivity|].
  rewrite !string_app_cons, IH. reflexivity.
Qed.

Lemma rev_app_spec (s1 s2 : string) :
  String.rev_app s1 s2 = String.rev s1 +:+ s2.
Proof.
  unfold String.rev. revert s2.
  induction s1 as [|a s1 IH]; intros s2; cbn [String.rev_app]; [reflexivity|].
  rewrite IH, (IH (String a "")), string_app_assoc. reflexivity.
Qed.

Lemma rev_cons (c : Ascii.ascii) (s : string) :
  String.rev (String c s) = String.rev s +:+ String c "".
Proof. unfold String.rev at 1. cbn. apply rev_app_spec. Qed.

Lemma rev_app_rev_app (s1 s2 s3 : string) :
  String.rev_app (String.rev_app s1 s2) s3 = String.rev_app s2 (s1 +:+ s3).
Proof.
  revert s2 s3.
  induction s1 as [|a s1 IH]; intros s2 s3; cbn [String.rev_app]; [reflexivity|].
  rewrite IH. reflexivity.
Qed.

Lemma rev_involutive (s : string) : String.rev (String.rev s) = s.
Proof.
  unfold String.rev. rewrite rev_app_rev_app. cbn [String.rev_app].
  apply string_app_empty_r.
Qed.

Lemma rev_snoc (s : string) (c : Ascii.ascii) :
  String.rev (s +:+ String c "") = String c (String.rev s).
Proof.
  rewrite <- (rev_involutive s) at 1. rewrite <- rev_cons.
  apply rev_involutive.
Qed.

Lemma rev_empty_inv (s : string) : String.rev s = "" -> s = "".
Proof. intros H. rewrite <- (rev_involutive s), H. reflexivity. Qed.

Lemma trimStart_snoc (x : string) (c : Ascii.ascii) :
  JsString.trimStart (x +:+ String c "")
  = match JsString.trimStart x with
    | EmptyString => if Ascii.is_space c then "" else String c ""
    | y => y +:+ String c ""
    end.
Proof.
  induction x as [|a x IH].
  - reflexivity.
  - rewrite string_app_cons. cbn [JsString.trimStart].
    destruct (Ascii.is_space a); [exact IH | reflexivity].
Qed.

Lemma trimEnd_cons (c : Ascii.ascii) (s : string) :
  JsString.trimEnd (String c s)
  = match JsString.trimEnd s with
    | EmptyString => if Ascii.is_space c then "" else String c ""
    | y => String c y
    end.
Proof.
  unfold JsString.trimEnd. rewrite rev_cons, trimStart_snoc.
  destruct (JsString.trimStart (String.rev s)) as [|a y] eqn:E.
  - cbn. destruct (Ascii.is_space c); reflexivity.
  - rewrite rev_snoc.
    destruct (String.rev (String a y)) eqn:R; [|reflexivity].
    apply rev_empty_inv in R. discriminate R.
Qed.

Lemma trimStart_clean (s : string) : starts_clean (JsString.trimStart s) = true.
Proof.
  induction s as [|a s IH]; cbn; [reflexivity|].
  destruct (Ascii.is_space a) eqn:E; [exact IH|]. cbn. now rewrite E.
Qed.

Lemma trimStart_id (s : string) :
  starts_clean s = true -> JsString.trimStart s = s.
Proof.
  destruct s as [|a s]; cbn; [reflexivity|].
  destruct (Ascii.is_space a); [discriminate | reflexivity].
Qed.

Lemma trimEnd_keeps_start (s : string) :
  starts_clean s = true -> starts_clean (JsString.trimEnd s) = true.
Proof.
  destruct s as [|a s]; [reflexivity|].
  cbn [starts_clean]. intros H. rewrite trimEnd_cons.
  destruct (Ascii.is_space a) eqn:E; [discriminate H|].
  destruct (JsString.trimEnd s); cbn [starts_clean]; rewrite E; reflexivity.
Qed.

Lemma trim_starts_clean (s : string) : starts_clean (JsString.trim s) = true.
Proof. apply trimEnd_keeps_start, trimStart_clean. Qed.

Lemma trim_ends_clean (s : string) : ends_clean (JsString.trim s) = true.
Proof.
  unfold ends_clean, JsString.trim, JsString.trimEnd.
  rewrite rev_involutive. apply trimStart_clean.
Qed.

Lemma trimEnd_id (s : string) : ends_clean s = true -> JsString.trimEnd s = s.
Proof.
  unfold ends_clean, JsString.trimEnd. intros H.
  rewrite (trimStart_id _ H). apply rev_involutive.
Qed.

Lemma trim_id (s : string) :
  starts_clean s = true -> ends_clean s = true -> JsString.trim s = s.
Proof.
  intros H1 H2. unfold JsString.trim.
  rewrite (trimStart_id _ H1). apply trimEnd_id, H2.
Qed.

Lemma trim_idempotent (s : string) :
  JsString.trim (JsString.trim s) = JsString.trim s.
Proof. apply trim_id; [apply trim_starts_clean | apply trim_ends_clean]. Qed.










Lemma lower_char_idempotent (c : Ascii.ascii) :
  JsString.toLowerCase_char (JsString.toLowerCase_char c)
  = JsString.toLowerCase_char c.
Proof. destruct c as [[] [] [] [] [] [] [] []]; reflexivity. Qed.

Lemma toLowerCase_idempotent (s : string) :
  JsString.toLowerCase (JsString.toLowerCase s) = JsString.toLowerCase s.
Proof.
  induction s as [|c s IH]; [reflexivity|].
  cbn [JsString.toLowerCase]. now rewrite lower_char_idempotent, IH.
Qed.















(** ** Runs of the handler *)




Lemma find_first {A} (f : A -> bool) (l : list A) (x : A) :
  List.find f l = Some x ->
  exists l1 l2, l = l1 ++ x :: l2 /\ f x = true
                /\ forall y, In y l1 -> f y = false.
Proof.
  induction l as [|a l IH]; cbn; [discriminate|].
  destruct (f a) eqn:E.
  - intros [= ->]. exists [], l. repeat split; [exact E | intros y []].
  - intros H. destruct (IH H) as (l1 & l2 & -> & Hx & Hl).
    exists (a :: l1), l2. repeat split; [exact Hx|].
    intros y [<- | Hy]; [exact E | exact (Hl y Hy)].
Qed.

(** X4: target resolution never fails.  It yields the first member of
    the fetched roster, in roster order, that matches the first argument;
    it yields nothing when the server is absent (the roster is then not
    fetched), when the fetch fails (logged) or when no member matches. *)
Theorem findTarget_first_match (w : World) (args : list string) :
  match snd (findTarget w args) with
  | Normal (Some targetMember) =>
      fst (findTarget w args) = [Ev_fetchMembers]
      /\ exists before after,
          fetchMembers w 0 = Some (Fulfilled (before ++ targetMember :: after))
          /\ matches (nth 0 args EmptyString) targetMember = true
          /\ forall m, In m before -> matches (nth 0 args EmptyString) m = false
  | Normal None =>
      (fetchMembers w 0 = None /\ fst (findTarget w args) = [])
      \/ (exists e, fetchMembers w 0 = Some (Rejected e)
                    /\ fst (findTarget w args)
                       = [Ev_fetchMembers; Ev_log "Error fetching members:" e])
      \/ (exists members, fetchMembers w 0 = Some (Fulfilled members)
                          /\ fst (findTarget w args) = [Ev_fetchMembers]
                          /\ forall m, In m members ->
                                       matches (nth 0 args EmptyString) m = false)
  | _ => False
  end.
Proof.
  unfold findTarget, await_optional, log.
  destruct (fetchMembers w 0) as [[members|e]|] eqn:F; flow_simpl.
  - destruct (List.find _ members) as [tm|] eqn:Hf.
    + split; [reflexivity|].
      destruct (find_first _ _ _ Hf) as (l1 & l2 & -> & Hm & Hl).
      exists l1, l2. auto.
    + right; right. exists members. repeat split.
      intros m Hm. exact (find_none _ _ Hf m Hm).
  - right; left. exists e. split; reflexivity.
  - left. split; reflexivity.
Qed.

Lemma findTarget_found (w : World) (a : list string) (members : list Member)
      (tm : Member) :
  fetchMembers w 0 = Some (Fulfilled members) ->
  List.find (matches (nth 0 a EmptyString)) members = Some tm ->
  snd (findTarget w a) = Normal (Some tm).
Proof.
  intros F H. unfold findTarget, await_optional, log.
  rewrite F. flow_simpl. rewrite H. reflexivity.
Qed.

Lemma is_bot_false (m : Member) (u : User) :
  user m = Some u -> bot u = false -> is_bot m = false.
Proof. intros H1 H2. unfold is_bot. now rewrite H1. Qed.

Lemma is_bot_nouser (m : Member) : user m = None -> is_bot m = false.
Proof. intros H1. unfold is_bot. now rewrite H1. Qed.




Ltac use_answers :=
  repeat match goal with
         | H : List.find _ _ = _ |- _ => rewrite H
         | H : user _ = _ |- _ => rewrite H
         | H : bot _ = _ |- _ => rewrite H
         end.

(** X6: the member that is removed is the member that target resolution
    found for the first argument, is not a bot, and is the one the poll
    was announced against. *)
Theorem removal_target
        (w : World) (args : option (list string)) (targetMember : Member) :
  In (Ev_kick targetMember) (trace w args) ->
  is_bot targetMember = false
  /\ exists (a : list string) (reason : string),
       args = Some a
       /\ snd (findTarget w a) = Normal (Some targetMember)
       /\ In (Ev_reply (VotekickStarted (user targetMember ≫= username) reason
                                        (author_username w)))
             (trace w args).
Proof.
  explore w; intros Hin; cbn in Hin; in_cases Hin.
  all: injection Hin as <-; same_answer.
  all: split; [use_answers; reflexivity|].
  all: match goal with
       | Hl : (length ?a <? 2)%nat = false |- _ => exists a
       end.
  all: eexists; split; [reflexivity|]; split; [use_answers; reflexivity|].
  all: use_answers; cbn; pick.
Qed.

Lemma removal_target_witness : is_bot Scenario.alice = false.
Proof.
  refine (proj1 (removal_target (Scenario.base 7 2 12) Scenario.args_alice
                   Scenario.alice _)).
  vm_compute; pick.
Defined.


Ltac split_last_one :=
  match goal with
  | |- exists pre, ?t = _ /\ _ =>
      exists (firstn (length t - 1) t); cbn [length Nat.sub firstn app]
  | |- exists pre d, ?t = _ /\ _ =>
      exists (firstn (length t - 1) t); cbn [length Nat.sub firstn app];
      eexists; split; [reflexivity|]
  end.

(** X7: once the first reading of the configuration has answered, the
    last thing the handler does is to send a reply that reports an
    outcome, and it returns the promise of that reply (or nothing, after
    the report of a reaction failure). *)
Theorem handler_always_answers
        (w : World) (args : option (list string)) (config : ServerConfig) :
  getServerConfig w 0 (JsString.falsy_or_empty (serverId w)) = Fulfilled config ->
  exists (pre : list event) (d : reply_data),
    trace w args = pre ++ [Ev_reply d]
    /\ outcome_of d <> None
    /\ (outcome w args = Return (reply w d)
        \/ (d = ReactionError /\ outcome w args = Return (Fulfilled None))).
Proof.
  intros H0. explore w; try congruence.
  all: split_last_one; split; [discriminate|]; auto.
Qed.

Lemma handler_always_answers_witness :
  exists (pre : list event) (d : reply_data),
    trace (Scenario.base 5 5 12) Scenario.args_alice = pre ++ [Ev_reply d].
Proof.
  destruct (handler_always_answers (Scenario.base 5 5 12) Scenario.args_alice
              (Scenario.config true) eq_refl) as (pre & d & E & _).
  exists pre, d. exact E.
Defined.


(** X8: the promise of the handler always settles.  It is rejected only
    with the fault of the first reading of the configuration, after which
    nothing else was done, or with the rejection of the last reply. *)
Theorem handler_promise_settles (w : World) (args : option (list string)) :
  exists r : settled (option Message),
    promise_of (outcome w args) = Some r
    /\ forall e, r = Rejected e ->
         (getServerConfig w 0 (JsString.falsy_or_empty (serverId w)) = Rejected e
          /\ trace w args
             = [Ev_getServerConfig (JsString.falsy_or_empty (serverId w))])
         \/ exists pre d, trace w args = pre ++ [Ev_reply d]
                          /\ reply w d = Rejected e.
Proof.
  explore w.
  all: eexists; split; [reflexivity|]; intros err Herr.
  all: try discriminate Herr.
  all: try (left; split; [congruence | reflexivity]).
  all: right; split_last_one; congruence.
Qed.

(** X9: vote markers are only ever attached as the pair yes, no, once,
    directly after an announcement that was posted. *)
Theorem markers_attached_as_a_pair
        (w : World) (args : option (list string)) (marker : string) :
  In (Ev_react marker) (trace w args) ->
  (marker = YES_MARKER \/ marker = NO_MARKER)
  /\ exists (pre post : list event) (target : option string) (reason : string)
            (startedBy : option string) (voteMessage : Message),
       trace w args
       = pre ++ [Ev_reply (VotekickStarted target reason startedBy);
                 Ev_react YES_MARKER; Ev_react NO_MARKER] ++ post
       /\ reply w (VotekickStarted target reason startedBy)
          = Fulfilled (Some voteMessage)
       /\ List.filter is_react pre = []
       /\ List.filter is_react post = [].
Proof.
  explore w; intros Hin; cbn in Hin; in_cases Hin.
  all: injection Hin as <-.
  all: (split; [auto|]).
  all: eexists [_;_;_], _, _, _, _, _; (split; [reflexivity|]).
  all: split; [eassumption|]; split; reflexivity.
Qed.

Lemma markers_attached_as_a_pair_witness :
  exists (pre post : list event) (target : option string) (reason : string)
         (startedBy : option string),
    trace (Scenario.with_react NO_MARKER (Rejected Scenario.down)
             (Scenario.base 7 2 12)) Scenario.args_alice
    = pre ++ [Ev_reply (VotekickStarted target reason startedBy);
              Ev_react YES_MARKER; Ev_react NO_MARKER] ++ post.
Proof.
  destruct (proj2 (markers_attached_as_a_pair
                     (Scenario.with_react NO_MARKER (Rejected Scenario.down)
                        (Scenario.base 7 2 12))
                     Scenario.args_alice YES_MARKER
                     ltac:(vm_compute; pick)))
    as (pre & post & t & r & s & vm & E & _).
  exists pre, post, t, r, s. exact E.
Defined.


(** X10: the message that is fetched for the tally is the announcement
    of the poll, and it is fetched only after both markers were attached
    and directly after the two timers of the vote window. *)
Theorem refetch_follows_the_window
        (w : World) (args : option (list string)) (id : string) :
  In (Ev_fetchMessage id) (trace w args) ->
  exists (pre post : list event) (target : option string) (reason : string)
         (startedBy : option string) (voteMessage : Message),
    trace w args
    = pre ++ [Ev_reply (VotekickStarted target reason startedBy);
              Ev_react YES_MARKER; Ev_react NO_MARKER;
              Ev_setTimeout 60000; Ev_setTimeout 61000;
              Ev_fetchMessage id] ++ post
    /\ reply w (VotekickStarted target reason startedBy)
       = Fulfilled (Some voteMessage)
    /\ id = _id voteMessage
    /\ react w voteMessage YES_MARKER = Fulfilled tt
    /\ react w voteMessage NO_MARKER = Fulfilled tt.
Proof.
  explore w; intros Hin; cbn in Hin; in_cases Hin.
  all: injection Hin as <-.
  all: eexists [_;_;_], _, _, _, _, _; (split; [reflexivity|]).
  all: split; [eassumption|]; split; [reflexivity|]; split; assumption.
Qed.

Lemma refetch_follows_the_window_witness :
  exists voteMessage : Message,
    reply (Scenario.base 7 2 12)
          (VotekickStarted (Some "Alice") "spamming links" (Some "Carol"))
    = Fulfilled (Some voteMessage)
    /\ "poll-1" = _id voteMessage.
Proof.
  destruct (refetch_follows_the_window (Scenario.base 7 2 12)
              Scenario.args_alice "poll-1" ltac:(vm_compute; pick))
    as (pre & post & t & r & s & vm & _ & R & I & _).
  exists vm. split; [|exact I]. exact R.
Defined.


(** X11: when the announcement cannot be fetched again after the window
    (no channel, no message, or a failing fetch), the poll ends in the
    outer [catch] with that cause: the roster is not read a second time,
    no decision is reported and nobody is removed. *)
Theorem lost_announcement_aborts
        (w : World) (args : option (list string))
        (target : option string) (reason : string) (startedBy : option string)
        (voteMessage : Message) :
  In (Ev_setTimeout VOTE_DURATION) (trace w args) ->
  In (Ev_reply (VotekickStarted target reason startedBy)) (trace w args) ->
  reply w (VotekickStarted target reason startedBy)
  = Fulfilled (Some voteMessage) ->
  forall cause : error,
    (fetchMessage w (_id voteMessage) = None
     /\ cause = Error "Could not fetch vote message")
    \/ (fetchMessage w (_id voteMessage) = Some (Fulfilled None)
        /\ cause = Error "Could not fetch vote message")
    \/ fetchMessage w (_id voteMessage) = Some (Rejected cause) ->
    (exists pre,
        trace w args
        = pre ++ [Ev_log "Error in votekick command:" cause;
                  Ev_reply (CommandError cause)]
        /\ List.filter is_top_level_log pre = [])
    /\ outcome w args = Return (reply w (CommandError cause))
    /\ length (List.filter is_fetchMembers (trace w args)) = 1%nat
    /\ List.filter is_decision (trace w args) = []
    /\ kicks (trace w args) = 0%nat.
Proof.
  intros Ht Hin Hr cause Hf. revert Ht Hin.
  explore w; intros Ht Hin; cbn in Ht, Hin; in_cases Ht; in_cases Hin.
  all: injection Hin as <- <- <-; same_answer.
  all: destruct Hf as [[Hf ->] | [[Hf ->] | Hf]]; same_answer.
  all: (split; [split_last_two; split; reflexivity|]).
  all: repeat split; reflexivity.
Qed.

Lemma lost_announcement_aborts_witness :
  kicks (trace (Scenario.with_message (Some (Fulfilled None))
                  (Scenario.base 7 2 12)) Scenario.args_alice) = 0%nat.
Proof.
  refine (proj2 (proj2 (proj2 (proj2
            (lost_announcement_aborts
               (Scenario.with_message (Some (Fulfilled None))
                  (Scenario.base 7 2 12))
               Scenario.args_alice
               (Some "Alice") "spamming links" (Some "Carol")
               Scenario.announcement _ _ _
               (Error "Could not fetch vote message") _))))).
  - vm_compute; pick.
  - vm_compute; pick.
  - reflexivity.
  - right; left. split; reflexivity.
Defined.


(** X12: when the announcement is not posted ([msg.reply] yields
    nothing, or fails), the poll ends in the outer [catch] at once: no
    marker is attached, no timer is started, nothing is fetched and
    nobody is removed. *)
Theorem announcement_not_posted_aborts
        (w : World) (args : option (list string))
        (target : option string) (reason : string) (startedBy : option string)
        (cause : error) :
  In (Ev_reply (VotekickStarted target reason startedBy)) (trace w args) ->
  (reply w (VotekickStarted target reason startedBy) = Fulfilled None
   /\ cause = Error "Failed to create vote message")
  \/ reply w (VotekickStarted target reason startedBy) = Rejected cause ->
  (exists pre,
      trace w args
      = pre ++ [Ev_reply (VotekickStarted target reason startedBy);
                Ev_log "Error in votekick command:" cause;
                Ev_reply (CommandError cause)])
  /\ outcome w args = Return (reply w (CommandError cause))
  /\ List.filter is_react (trace w args) = []
  /\ List.filter is_later_stage (trace w args) = [].
Proof.
  intros Hin Hr. revert Hin.
  explore w; intros Hin; cbn in Hin; in_cases Hin.
  all: injection Hin as <- <- <-.
  all: destruct Hr as [[Hr ->] | Hr]; same_answer.
  all: (split; [eexists [_;_;_]; reflexivity|]).
  all: repeat split; reflexivity.
Qed.

Lemma announcement_not_posted_aborts_witness :
  List.filter is_react
    (trace (with_announcement (Fulfilled None) (Scenario.base 7 2 12))
           Scenario.args_alice) = [].
Proof.
  refine (proj1 (proj2 (proj2
            (announcement_not_posted_aborts
               (with_announcement (Fulfilled None) (Scenario.base 7 2 12))
               Scenario.args_alice
               (Some "Alice") "spamming links" (Some "Carol")
               (Error "Failed to create vote message") _ _)))).
  - vm_compute; pick.
  - left. split; reflexivity.
Defined.


(** X13: a report that the vote failed shows the counts read from the
    re-fetched announcement and the threshold computed from the roster
    read at tally time, the votes shown do fail the quorum, and nobody
    was removed. *)
Theorem failed_report_is_truthful
        (w : World) (args : option (list string))
        (name : option string) (yesVotes noVotes requiredVotes : Z) :
  In (Ev_reply (VotekickFailed name yesVotes noVotes requiredVotes))
     (trace w args) ->
  kicks (trace w args) = 0%nat
  /\ exists (id : string) (message : Message) (members : list Member),
       In (Ev_fetchMessage id) (trace w args)
       /\ fetchMessage w id = Some (Fulfilled (Some message))
       /\ fetchMembers w 1 = Some (Fulfilled members)
       /\ members <> []
       /\ yesVotes = votes message YES_MARKER
       /\ noVotes = votes message NO_MARKER
       /\ requiredVotes = Quorum.requiredVotes (Z.of_nat (length members))
       /\ (yesVotes <= noVotes \/ yesVotes < requiredVotes).
Proof.
  explore w; intros Hin; cbn in Hin; in_cases Hin.
  all: injection Hin as <- <- <- <-.
  all: split; [reflexivity|].
  all: eexists _, _, _; split; [cbn; pick|].
  all: split; [eassumption|]; split; [reflexivity|].
  all: split; [intros ->; discriminate|].
  all: repeat (split; [reflexivity|]).
  all: match goal with
       | Hp : Quorum.votekickPasses ?y ?n ?m = false |- _ =>
           destruct (Z_lt_le_dec n y) as [L1|L1]; [|left; exact L1];
           destruct (Z_lt_le_dec y (Quorum.requiredVotes m)) as [L2|L2];
           [right; exact L2|];
           exfalso;
           assert (Quorum.votekickPasses y n m = true)
             by (apply votekickPasses_iff; lia);
           congruence
       end.
Qed.

Lemma failed_report_is_truthful_witness :
  kicks (trace (Scenario.base 5 5 12) Scenario.args_alice) = 0%nat.
Proof.
  refine (proj1 (failed_report_is_truthful (Scenario.base 5 5 12)
                   Scenario.args_alice (Some "Alice") 5 5 6 _)).
  vm_compute; pick.
Defined.


(** X14: a report of a successful votekick is only sent after a removal
    that succeeded, and names the removed member; the report that the
    removal failed is only sent after a removal that failed, which was
    logged. *)
Theorem removal_reports_are_truthful
        (w : World) (args : option (list string)) :
  (forall name yesVotes noVotes reason,
      In (Ev_reply (VotekickSuccessful name yesVotes noVotes reason))
         (trace w args) ->
      exists targetMember,
        In (Ev_kick targetMember) (trace w args)
        /\ kick w targetMember = Fulfilled tt
        /\ name = user targetMember ≫= username)
  /\ (In (Ev_reply KickFailed) (trace w args) ->
      exists targetMember e,
        In (Ev_kick targetMember) (trace w args)
        /\ kick w targetMember = Rejected e
        /\ In (Ev_log "Failed to kick user after successful votekick:" e)
              (trace w args)).
Proof.
  split.
  - intros name y n reason.
    explore w; intros Hin; cbn in Hin; in_cases Hin.
    all: injection Hin as <- <- <- <-.
    all: eexists; split; [cbn; pick|]; split; [eassumption|].
    all: use_answers; reflexivity.
  - explore w; intros Hin; cbn in Hin; in_cases Hin.
    all: eexists _, _; split; [cbn; pick|]; split; [eassumption|].
    all: cbn; pick.
Qed.

Lemma removal_reports_are_truthful_witness :
  exists targetMember : Member,
    In (Ev_kick targetMember) (trace (Scenario.base 7 2 12) Scenario.args_alice)
    /\ kick (Scenario.base 7 2 12) targetMember = Fulfilled tt.
Proof.
  destruct (proj1 (removal_reports_are_truthful (Scenario.base 7 2 12)
                     Scenario.args_alice)
              (Some "Alice") 7 2 "spamming links" ltac:(vm_compute; pick))
    as (tm & K & F & _).
  exists tm. split; [exact K | exact F].
Defined.


(** X15: when an eligibility check rejects the command, the rejection is
    the only reply: nothing is announced, no marker is attached, no timer
    is started and nobody is removed. *)
Theorem gate_rejection_touches_nothing
        (w : World) (args : option (list string)) (d : reply_data) :
  is_gate_reject d = true ->
  In (Ev_reply d) (trace w args) ->
  replies (trace w args) = [d]
  /\ outcome w args = Return (reply w d)
  /\ List.filter is_react (trace w args) = []
  /\ List.filter is_later_stage (trace w args) = [].
Proof.
  intros Hd. explore w; intros Hin; cbn in Hin; in_cases Hin.
  all: try (injection Hin as <-; discriminate Hd).
  all: injection Hin as <-.
  all: repeat split; reflexivity.
Qed.

Lemma gate_rejection_touches_nothing_witness :
  replies (trace (Scenario.with_author (Some "mallory") (Scenario.base 7 2 12))
                 Scenario.args_alice)
  = [AccessDenied].
Proof.
  refine (proj1 (gate_rejection_touches_nothing
                   (Scenario.with_author (Some "mallory") (Scenario.base 7 2 12))
                   Scenario.args_alice AccessDenied _ _)).
  - reflexivity.
  - vm_compute; pick.
Defined.


(** ** Votes, quorum and texts *)




(** X16: the tally reads the two vote markers only: adding or removing
    reactions with any other emoji changes neither count. *)
Theorem tally_ignores_other_reactions
        (message : Message) (r : gmap string (gset string))
        (emoji : string) (users : gset string) :
  reactions message = Some r ->
  emoji <> YES_MARKER -> emoji <> NO_MARKER ->
  votes (with_reactions (<[emoji := users]> r) message) YES_MARKER
  = votes message YES_MARKER
  /\ votes (with_reactions (<[emoji := users]> r) message) NO_MARKER
     = votes message NO_MARKER
  /\ votes (with_reactions (delete emoji r) message) YES_MARKER
     = votes message YES_MARKER
  /\ votes (with_reactions (delete emoji r) message) NO_MARKER
     = votes message NO_MARKER.
Proof.
  intros Hr Hy Hn. unfold votes, with_reactions. rewrite Hr. cbn.
  rewrite !lookup_insert_ne, !lookup_delete_ne by assumption.
  repeat split.
Qed.

Lemma tally_ignores_other_reactions_witness :
  votes (with_reactions
           (<["%F0%9F%91%8D" := Scenario.voters 3]>
              {[ YES_MARKER := Scenario.voters 7;
                 NO_MARKER := Scenario.voters 2 ]})
           (Scenario.counted 7 2)) YES_MARKER
  = votes (Scenario.counted 7 2) YES_MARKER.
Proof.
  refine (proj1 (tally_ignores_other_reactions (Scenario.counted 7 2)
                   {[ YES_MARKER := Scenario.voters 7;
                      NO_MARKER := Scenario.voters 2 ]}
                   "%F0%9F%91%8D" (Scenario.voters 3) _ _ _)).
  - reflexivity.
  - vm_compute; discriminate.
  - vm_compute; discriminate.
Defined.



(** X17: a vote that passes still passes with more yes votes, fewer no
    votes or a smaller roster. *)
Theorem quorum_is_monotone (yes no size yes' no' size' : Z) :
  Quorum.quorum yes no size = Quorum.Passed ->
  yes <= yes' -> no' <= no -> size' <= size ->
  Quorum.quorum yes' no' size' = Quorum.Passed.
Proof.
  unfold Quorum.quorum. intros H Hy Hn Hs.
  destruct (Quorum.votekickPasses yes no size) eqn:P; [|discriminate H].
  apply votekickPasses_iff in P as [P1 P2].
  apply requiredVotes_least in P2.
  assert (E : Quorum.votekickPasses yes' no' size' = true).
  { apply votekickPasses_iff. split; [lia|]. apply requiredVotes_least. lia. }
  now rewrite E.
Qed.

Lemma quorum_is_monotone_witness : Quorum.quorum 8 1 10 = Quorum.Passed.
Proof.
  apply (quorum_is_monotone 7 2 12 8 1 10); [reflexivity | lia | lia | lia].
Defined.


(** X18: for a roster of [size] >= 0 members the threshold lies between
    0 and [size], and twice the threshold is [size] or [size + 1]; a
    roster that is not empty and votes yes as a whole passes; a vote that
    passes has at least one yes vote, yes votes for at least half the
    roster and more yes than no votes. *)
Theorem required_votes_bounds (size : Z) :
  0 <= size ->
  0 <= Quorum.requiredVotes size <= size
  /\ size <= 2 * Quorum.requiredVotes size <= size + 1
  /\ (1 <= size -> Quorum.quorum size 0 size = Quorum.Passed)
  /\ (forall yes no, 0 <= no ->
        Quorum.quorum yes no size = Quorum.Passed ->
        1 <= yes /\ size <= 2 * yes /\ no < yes).
Proof.
  intros H. rewrite requiredVotes_div.
  pose proof (Z.div_mod (size + 1) 2 ltac:(lia)) as D.
  pose proof (Z.mod_pos_bound (size + 1) 2 ltac:(lia)) as B.
  split; [lia|]. split; [lia|]. split.
  - intros H1. unfold Quorum.quorum.
    assert (E : Quorum.votekickPasses size 0 size = true).
    { apply votekickPasses_iff. rewrite requiredVotes_div. lia. }
    now rewrite E.
  - intros yes no Hn. unfold Quorum.quorum.
    destruct (Quorum.votekickPasses yes no size) eqn:P; [|discriminate].
    intros _. apply votekickPasses_iff in P as [P1 P2].
    apply requiredVotes_least in P2. lia.
Qed.

Lemma required_votes_bounds_witness :
  0 <= Quorum.requiredVotes 12 <= 12.
Proof. apply (required_votes_bounds 12); lia. Defined.


(** X19: the texts of the replies tell the outcomes apart: two replies
    with the same text were made by the same call of [msg.reply]. *)
Theorem replies_are_told_apart (d1 d2 : reply_data) :
  render d1 = render d2 -> same_kind d1 d2 = true.
Proof.
  destruct d1, d2; cbn [same_kind]; try reflexivity; intros H;
    exfalso; vm_compute in H; discriminate H.
Qed.

Lemma replies_are_told_apart_witness :
  same_kind (VotekickFailed None 0 0 1) (VotekickFailed None 0 0 1) = true.
Proof. apply replies_are_told_apart. reflexivity. Defined.


(** ** The server summary *)



(** X20: the lines of the server summary, after [filter(Boolean)]: the
    three empty separator lines of the source are dropped with the
    [null]s, the description appears only when it is not empty, the flags
    only when there are flags, the owner is never blank ("Unknown"
    stands in), and no line of the result is empty. *)
Theorem serverinfo_lines_shown
        (server : ServerInfo.Server) (owner : option Member)
        (memberCount : nat) (createdDate : string) :
  ServerInfo.filter_Boolean
    (ServerInfo.lines server owner memberCount createdDate)
  = [ "**Owner:** " +:+ ServerInfo.owner_name owner;
      "**Created:** " +:+ createdDate;
      "**Server ID:** `" +:+ ServerInfo._id server +:+ "`";
      "**Statistics:**";
      "• Members: " +:+ pretty memberCount;
      "• Channels: "
        +:+ pretty (ServerInfo.count_keys (ServerInfo.channels server));
      "• Roles: " +:+ pretty (ServerInfo.count_keys (ServerInfo.roles server)) ]
    ++ match ServerInfo.description server with
       | Some d => if String.eqb d "" then []
                   else ["**Description:**" +:+ nl +:+ d]
       | None => []
       end
    ++ [ "**Features:**";
         "• NSFW: " +:+ if ServerInfo.nsfw server then "Yes" else "No" ]
    ++ match ServerInfo.flags server with
       | Some keys => ["• Flags: " +:+ JsString.join ", " keys]
       | None => []
       end
  /\ ~ In "" (ServerInfo.filter_Boolean
                (ServerInfo.lines server owner memberCount createdDate))
  /\ ServerInfo.owner_name owner <> "".
Proof.
  assert (Hown : ServerInfo.owner_name owner <> "").
  { unfold ServerInfo.owner_name.
    destruct ((owner ≫= user) ≫= username) as [n|]; [|discriminate].
    unfold JsString.truthy.
    destruct (String.eqb_spec n ""); cbn; [discriminate | assumption]. }
  split; [|split; [|exact Hown]].
  - unfold ServerInfo.filter_Boolean, ServerInfo.lines.
    destruct (ServerInfo.description server) as [d|];
      destruct (ServerInfo.flags server) as [keys|];
      destruct (ServerInfo.nsfw server);
      unfold JsString.truthy;
      try destruct (String.eqb_spec d ""); try subst d; reflexivity.
  - unfold ServerInfo.filter_Boolean, ServerInfo.lines.
    destruct (ServerInfo.description server) as [d|];
      destruct (ServerInfo.flags server) as [keys|];
      destruct (ServerInfo.nsfw server);
      unfold JsString.truthy;
      try destruct (String.eqb_spec d ""); try subst d;
      cbn; intros H;
      repeat (destruct H as [H|H];
              [cbv [String.append] in H; discriminate H|]);
      exact H.
Qed.

Ltac si_cases w srv :=
  destruct (ServerInfo.fetchMember w (ServerInfo.owner srv)) as [?o|?e] eqn:?;
  [ destruct (ServerInfo.fetchMembers w) as [?members|?e] eqn:?;
    [ match goal with
      | |- context [ServerInfo.reply w (ServerInfo.Information ?a ?b ?c ?d)] =>
          destruct (ServerInfo.reply w (ServerInfo.Information a b c d))
            as [[]|?e] eqn:?
      end | ] | ];
  destruct (ServerInfo.logger w) eqn:?;
  cbn [fst snd app].

Ltac si_unfold :=
  unfold ServerInfo.execute, ServerInfo.call, ServerInfo.try_catch,
    ServerInfo.and_then.

Ltac si_explore w :=
  si_unfold;
  let srv := fresh "srv" in
  destruct (ServerInfo.server w) as [srv|] eqn:?;
  [ si_cases w srv | cbn [fst snd app] ].

(** X21: the server summary always ends with a reply, whose delivery
    settles the promise of the handler; it sends one reply, or two when
    the summary itself could not be delivered; outside a server it
    fetches nothing. *)
Theorem serverinfo_always_replies (w : ServerInfo.World) :
  (exists pre d,
      fst (ServerInfo.execute w) = pre ++ [ServerInfo.Ev_reply d]
      /\ snd (ServerInfo.execute w) = ServerInfo.reply w d)
  /\ (1 <= length (ServerInfo.replies (fst (ServerInfo.execute w))) <= 2)%nat
  /\ (ServerInfo.server w = None ->
      ServerInfo.execute w
      = ([ServerInfo.Ev_reply ServerInfo.NotInServer],
         ServerInfo.reply w ServerInfo.NotInServer)).
Proof.
  split; [|split].
  - si_explore w.
    all: match goal with
         | |- exists pre d, ?t = _ /\ _ =>
             exists (firstn (length t - 1) t); cbn [length Nat.sub firstn app];
             eexists; split; [reflexivity|]
         end.
    all: first [reflexivity | symmetry; assumption].
  - si_explore w; cbn; lia.
  - intros H. unfold ServerInfo.execute. rewrite H. reflexivity.
Qed.

(** X22: in a server, the failure reply is sent exactly when the owner,
    the roster or the delivery of the summary failed; the fault is logged
    exactly when there is a logger; the roster is fetched only after the
    owner was; when the owner cannot be fetched nothing else is fetched
    and the failure is the only reply. *)
Theorem serverinfo_failure_is_reported
        (w : ServerInfo.World) (s : ServerInfo.Server) :
  ServerInfo.server w = Some s ->
  (In (ServerInfo.Ev_reply ServerInfo.FetchFailed) (fst (ServerInfo.execute w))
   <-> ~ exists o members,
          ServerInfo.fetchMember w (ServerInfo.owner s) = Fulfilled o
          /\ ServerInfo.fetchMembers w = Fulfilled members
          /\ ServerInfo.reply w
               (ServerInfo.Information s o (length members)
                  (ServerInfo.toLocaleDateString w (ServerInfo.createdAt s)))
             = Fulfilled tt)
  /\ ((exists e, In (ServerInfo.Ev_log "Error fetching server info:" e)
                    (fst (ServerInfo.execute w)))
      <-> ServerInfo.logger w = true
          /\ In (ServerInfo.Ev_reply ServerInfo.FetchFailed)
                (fst (ServerInfo.execute w)))
  /\ (In ServerInfo.Ev_fetchMembers (fst (ServerInfo.execute w))
      -> exists o, ServerInfo.fetchMember w (ServerInfo.owner s) = Fulfilled o)
  /\ (forall e, ServerInfo.fetchMember w (ServerInfo.owner s) = Rejected e ->
        List.filter ServerInfo.is_fetch (fst (ServerInfo.execute w))
        = [ServerInfo.Ev_fetchMember (ServerInfo.owner s)]
        /\ ServerInfo.replies (fst (ServerInfo.execute w))
           = [ServerInfo.FetchFailed]).
Proof.
  intros H. si_unfold. rewrite H.
  split; [|split; [|split]].
  - si_cases w s; split.
    all: try (intros Hin (o' & m' & H1 & H2 & H3); cbn in Hin;
              solve [ in_cases Hin | congruence ]).
    all: intros Hn; solve [ cbn; pick
                          | exfalso; apply Hn; eexists _, _;
                            repeat split; eassumption ].
  - si_cases w s; split.
    all: try (intros [e' Hin]; cbn in Hin; in_cases Hin;
              split; [reflexivity | cbn; pick]).
    all: intros [Hlog Hin]; try discriminate Hlog;
      cbn in Hin; in_cases Hin; eexists; cbn; pick.
  - si_cases w s.
    all: try (intros _; eexists; reflexivity).
    all: intros Hin; cbn in Hin; in_cases Hin.
  - si_cases w s.
    all: intros e' He'; try discriminate He'; split; reflexivity.
Qed.

Lemma serverinfo_failure_is_reported_witness :
  In (ServerInfo.Ev_reply ServerInfo.FetchFailed)
     (fst (ServerInfo.execute (ServerInfo.demo (Rejected Scenario.down)))).
Proof.
  refine (proj2 (proj1 (serverinfo_failure_is_reported
                          (ServerInfo.demo (Rejected Scenario.down))
                          ServerInfo.demo_server eq_refl)) _).
  intros (o & members & _ & H & _). discriminate H.
Defined.


(** X23: a summary that is sent shows the server of the invocation, the
    owner and the number of members that were fetched for it, owner
    first, and the date as the runtime formats the creation time. *)
Theorem serverinfo_information_is_fetched
        (w : ServerInfo.World) (s : ServerInfo.Server) (o : option Member)
        (memberCount : nat) (createdDate : string) :
  In (ServerInfo.Ev_reply (ServerInfo.Information s o memberCount createdDate))
     (fst (ServerInfo.execute w)) ->
  ServerInfo.server w = Some s
  /\ ServerInfo.fetchMember w (ServerInfo.owner s) = Fulfilled o
  /\ exists members,
       ServerInfo.fetchMembers w = Fulfilled members
       /\ memberCount = length members
       /\ createdDate = ServerInfo.toLocaleDateString w (ServerInfo.createdAt s)
       /\ List.filter ServerInfo.is_fetch (fst (ServerInfo.execute w))
          = [ServerInfo.Ev_fetchMember (ServerInfo.owner s);
             ServerInfo.Ev_fetchMembers].
Proof.
  si_explore w; intros Hin; cbn in Hin; in_cases Hin.
  all: injection Hin as <- <- <- <-.
  all: split; [reflexivity|]; split; [assumption|].
  all: eexists; split; [reflexivity|]; repeat split.
Qed.

Lemma serverinfo_information_is_fetched_witness :
  exists members : list Member,
    ServerInfo.fetchMembers (ServerInfo.demo (Fulfilled (Scenario.roster 12)))
    = Fulfilled members
    /\ 12%nat = length members.
Proof.
  destruct (serverinfo_information_is_fetched
              (ServerInfo.demo (Fulfilled (Scenario.roster 12)))
              ServerInfo.demo_server (Some Scenario.alice) 12
              "November 14, 2023" ltac:(vm_compute; pick))
    as (_ & _ & members & M & L & _).
  exists members. split; [exact M | exact L].
Defined.
